(** * Harbour planner: the optimisation front end, embedded in Rocq

    The repository is the React front end of a marina planner.  The pages
    embedded here are

    - [Optimization] (automatic optimisation page): [findBestStrategy],
      [handleRunOptimization] and the comparison grid;
    - [Visualization] (harbour map): [getSlotColor], [getBoatInfoForSlot],
      [handleSlotClick], [handleStatusChange] and the strategy tabs;
    - [SlotList]: the static table [slotsData];
    - [services/api.js]: the request built by [runOptimization].

    JavaScript values are embedded as follows.  Counts and identifiers are
    integers ([Z]); rates and sizes are decimal numbers, kept as exact
    rationals ([Q]) since the pages only compare, copy and default them;
    strings are [string]; [null]/[undefined] is [None]; an object that is
    enumerated with [Object.entries] is an association list in enumeration
    order (insertion order for strategy names); an object that is only
    indexed by key is a [gmap]. *)

From Stdlib Require Import ZArith QArith Lia.
From stdpp Require Import base option list gmap strings sorting pretty.

Local Open Scope Z_scope.

(** ** Values shared by the pages *)

(** One entry of [response.data.evaluations]. *)
Record Evaluation : Type := mkEvaluation {
  boats_placed : Z;
  total_boats : Z;
  placement_rate : Q;
  utilization : Q;
  score : Q
}.

(** The object [{ name, evaluation }] built by [findBestStrategy]. *)
Record BestStrategy : Type := mkBest {
  name : string;
  evaluation : Evaluation
}.

(** [Object.entries(evaluations)]. *)
Abbreviation Evaluations := (list (string * Evaluation)).

(** JavaScript truthiness of a number and of a string, as used by [||]. *)
Definition truthyZ (x : Z) : bool := negb (x =? 0).
Definition truthyQ (x : Q) : bool := negb (Qeq_bool x 0).
Definition truthyS (s : string) : bool := negb (String.eqb s "").

(** [x || d] where [x] may be [undefined]. *)
Definition orZ (x : option Z) (d : Z) : Z :=
  match x with
  | Some v => if truthyZ v then v else d
  | None => d
  end.

Definition orQ (x : option Q) (d : Q) : Q :=
  match x with
  | Some v => if truthyQ v then v else d
  | None => d
  end.

Definition orS (x : option string) (d : string) : string :=
  match x with
  | Some v => if truthyS v then v else d
  | None => d
  end.

(** ** Optimization page: selection of the best strategy *)

Module Selection.

(** The two locals of [findBestStrategy]: [bestStrategy], [maxBoatsPlaced]. *)
Definition Acc : Type := (option BestStrategy * Z)%type.

(** Body of the [forEach] callback. *)
Definition visit (acc : Acc) (entry : string * Evaluation) : Acc :=
  let '(strategyName, evaluation) := entry in
  if boats_placed evaluation >? snd acc
  then (Some (mkBest strategyName evaluation), boats_placed evaluation)
  else acc.

(** [findBestStrategy]: [bestStrategy = null] and [maxBoatsPlaced = 0], the
    loop over [Object.entries(evaluations)], then [return bestStrategy]. *)
Definition findBestStrategy (evaluations : Evaluations) : option BestStrategy :=
  fst (fold_left visit evaluations (None, 0)).

(** The evaluation sets of the two scenarios used below. *)
Definition ev_none_placed : Evaluations :=
  [("first_fit", mkEvaluation 0 3 0 0 0); ("best_fit", mkEvaluation 0 3 0 0 0)].

(** Two boats out of two for both strategies, utilisation 0.2 against 0.5,
    scores 0.7 * 1 + 0.3 * utilisation. *)
Definition ev_tied : Evaluations :=
  [("first_fit", mkEvaluation 2 2 1 (1#5) (19#25));
   ("best_fit", mkEvaluation 2 2 1 (1#2) (17#20))].

(** The selection rule of the specification, read on an evaluation set: among
    entries with the same [boats_placed] the one with the lower score is not
    the one selected. *)
Definition prefers_higher_score : Prop :=
  forall (evaluations : Evaluations) n1 e1 n2 e2 b,
    (n1, e1) ∈ evaluations -> (n2, e2) ∈ evaluations ->
    boats_placed e1 = boats_placed e2 ->
    (score e1 < score e2)%Q ->
    findBestStrategy evaluations = Some b ->
    name b <> n1.

(** What a selection by largest [boats_placed] has to return. *)
Definition selects_max (evaluations : Evaluations) (r : option BestStrategy) : Prop :=
  exists b, r = Some b /\ (name b, evaluation b) ∈ evaluations /\
    forall n e, (n, e) ∈ evaluations ->
      boats_placed e <= boats_placed (evaluation b).

(** Two evaluation sets that agree on names and [boats_placed]. *)
Definition same_counts (x y : string * Evaluation) : Prop :=
  x.1 = y.1 /\ boats_placed x.2 = boats_placed y.2.

(** *** The loop of [findBestStrategy] *)

Lemma fold_visit_snoc l acc x :
  fold_left visit (l ++ [x]) acc = visit (fold_left visit l acc) x.
Proof. by rewrite fold_left_app. Qed.

(** Either no entry beats the initial maximum and the accumulator is
    unchanged, or the loop ends on the first entry carrying the largest
    count. *)
Lemma fold_visit_spec l acc :
  (fold_left visit l acc = acc /\
   forall x, x ∈ l -> boats_placed x.2 <= snd acc) \/
  (exists l1 n e l2,
     l = l1 ++ (n, e) :: l2 /\
     fold_left visit l acc = (Some (mkBest n e), boats_placed e) /\
     snd acc < boats_placed e /\
     (forall x, x ∈ l1 -> boats_placed x.2 < boats_placed e) /\
     (forall x, x ∈ l2 -> boats_placed x.2 <= boats_placed e)).
Proof.
  induction l as [|[n e] l IH] using rev_ind.
  - left. split; [done|]. intros x Hx. inversion Hx.
  - rewrite fold_visit_snoc.
    destruct IH as [[Heq Hle]|(l1 & n0 & e0 & l2 & -> & Heq & Hlt & H1 & H2)];
      rewrite Heq; unfold visit; cbn [snd];
      destruct (Z.gtb_spec (boats_placed e) (snd acc)) as [Hgt|Hngt].
    + right. exists l, n, e, []. repeat split; auto.
      * intros x Hx. specialize (Hle x Hx). lia.
      * intros x Hx. inversion Hx.
    + left. split; [done|]. intros x [Hx|Hx]%elem_of_app; auto.
      apply list_elem_of_singleton in Hx as ->. simpl. lia.
    + destruct (Z.gtb_spec (boats_placed e) (boats_placed e0)) as [Hgt'|Hngt'].
      * right. exists (l1 ++ (n0, e0) :: l2), n, e, []. repeat split; auto.
        -- intros x [Hx|Hx]%elem_of_app.
           ++ specialize (H1 x Hx). lia.
           ++ apply elem_of_cons in Hx as [->|Hx]; [simpl; lia|].
              specialize (H2 x Hx). lia.
        -- intros x Hx. inversion Hx.
      * right. exists l1, n0, e0, (l2 ++ [(n, e)]). repeat split; auto.
        -- by rewrite <- app_assoc.
        -- intros x [Hx|Hx]%elem_of_app; auto.
           apply list_elem_of_singleton in Hx as ->. simpl. lia.
    + destruct (Z.gtb_spec (boats_placed e) (boats_placed e0)) as [Hgt'|Hngt'].
      * lia.
      * right. exists l1, n0, e0, (l2 ++ [(n, e)]). repeat split; auto.
        -- by rewrite <- app_assoc.
        -- intros x [Hx|Hx]%elem_of_app; auto.
           apply list_elem_of_singleton in Hx as ->. simpl. lia.
Qed.

(** No strategy is returned exactly when no evaluation places a boat. *)
Lemma findBestStrategy_None (evaluations : Evaluations) :
  findBestStrategy evaluations = None <->
  forall x, x ∈ evaluations -> boats_placed x.2 <= 0.
Proof.
  unfold findBestStrategy.
  destruct (fold_visit_spec evaluations (None, 0))
    as [[Heq Hle]|(l1 & n & e & l2 & -> & Heq & Hlt & H1 & H2)]; rewrite Heq; simpl.
  - split; auto.
  - split; [done|]. intros H. simpl in Hlt.
    specialize (H (n, e)). simpl in H.
    assert (boats_placed e <= 0); [|lia].
    apply H, elem_of_app. right. left.
Qed.

(** A returned strategy is the first entry, in enumeration order, carrying
    the largest count, and that count is positive. *)
Lemma findBestStrategy_Some (evaluations : Evaluations) b :
  findBestStrategy evaluations = Some b ->
  exists l1 l2,
    evaluations = l1 ++ (name b, evaluation b) :: l2 /\
    0 < boats_placed (evaluation b) /\
    (forall x, x ∈ l1 -> boats_placed x.2 < boats_placed (evaluation b)) /\
    (forall x, x ∈ l2 -> boats_placed x.2 <= boats_placed (evaluation b)).
Proof.
  unfold findBestStrategy.
  destruct (fold_visit_spec evaluations (None, 0))
    as [[Heq Hle]|(l1 & n & e & l2 & -> & Heq & Hlt & H1 & H2)]; rewrite Heq; simpl.
  - discriminate.
  - intros [= <-]. exists l1, l2. simpl. auto.
Qed.

(** When some strategy places a boat, the selection is the maximum. *)
Lemma findBestStrategy_positive (evaluations : Evaluations) n e :
  (n, e) ∈ evaluations -> 0 < boats_placed e ->
  selects_max evaluations (findBestStrategy evaluations).
Proof.
  intros Hin Hpos.
  destruct (findBestStrategy evaluations) as [b|] eqn:Hb.
  - destruct (findBestStrategy_Some _ _ Hb) as (l1 & l2 & -> & _ & H1 & H2).
    exists b. split; [done|]. split.
    + apply elem_of_app. right. left.
    + intros n' e' [Hx|Hx]%elem_of_app.
      * specialize (H1 _ Hx). simpl in H1. lia.
      * apply elem_of_cons in Hx as [[= _ ->]|Hx]; [lia|].
        apply (H2 _ Hx).
  - pose proof (proj1 (findBestStrategy_None _) Hb _ Hin) as Hle.
    simpl in Hle. lia.
Qed.

(** The selection reads nothing but names and [boats_placed]. *)
Lemma fold_visit_same_counts l l' acc acc' :
  Forall2 same_counts l l' ->
  name <$> fst acc = name <$> fst acc' -> snd acc = snd acc' ->
  name <$> fst (fold_left visit l acc) = name <$> fst (fold_left visit l' acc') /\
  snd (fold_left visit l acc) = snd (fold_left visit l' acc').
Proof.
  intros HF. revert acc acc'.
  induction HF as [|[n e] [n' e'] l l' [Hn Hc] HF IH]; intros acc acc' H1 H2.
  - done.
  - cbn [fold_left]. apply IH; simpl in Hn, Hc; subst n';
      unfold visit; rewrite Hc, H2;
      destruct (boats_placed e' >? snd acc'); simpl; auto.
Qed.

(** C1 (defect in [findBestStrategy]): the running maximum starts at 0 and is
    only replaced by a strictly larger count, so on a non-empty evaluation set
    in which every strategy places no boat the function returns [null]: no
    strategy is selected, although the largest [boats_placed] of the set, 0,
    is reached by every entry. *)
Theorem findBestStrategy_nothing_placed :
  ev_none_placed <> [] /\
  findBestStrategy ev_none_placed = None /\
  ~ selects_max ev_none_placed (findBestStrategy ev_none_placed).
Proof.
  split; [done|]. split; [reflexivity|].
  intros (b & Hb & _). discriminate Hb.
Qed.

(** C2 (as stated, refuted): two strategies tie on [boats_placed]; the one
    enumerated first is returned although its score and its utilisation are
    the lower ones. *)
Lemma score_tie_break_refuted : ~ prefers_higher_score.
Proof.
  intros H.
  apply (H ev_tied "first_fit" (mkEvaluation 2 2 1 (1#5) (19#25))
           "best_fit" (mkEvaluation 2 2 1 (1#2) (17#20))
           (mkBest "first_fit" (mkEvaluation 2 2 1 (1#5) (19#25)))).
  - left.
  - right. left.
  - reflexivity.
  - reflexivity.
  - reflexivity.
  - reflexivity.
Qed.

(** C2 (amended): among strategies with equal [boats_placed] the one
    enumerated first is selected: every entry before the selected one has
    strictly fewer boats placed.  Score and utilisation are not read: an
    evaluation set with the same names and counts selects the same name. *)
Theorem tie_break_is_enumeration_order (evaluations evaluations' : Evaluations) b :
  Forall2 same_counts evaluations evaluations' ->
  findBestStrategy evaluations = Some b ->
  (exists l1 l2,
     evaluations = l1 ++ (name b, evaluation b) :: l2 /\
     forall x, x ∈ l1 -> boats_placed x.2 < boats_placed (evaluation b)) /\
  name <$> findBestStrategy evaluations' = Some (name b).
Proof.
  intros HF Hb. split.
  - destruct (findBestStrategy_Some _ _ Hb) as (l1 & l2 & Heq & _ & H1 & _).
    by exists l1, l2.
  - unfold findBestStrategy in *.
    destruct (fold_visit_same_counts _ _ (None, 0) (None, 0) HF eq_refl eq_refl)
      as [Hn _].
    rewrite <- Hn, Hb. done.
Qed.

(** The tied scenario with the scores exchanged. *)
Definition ev_tied_swapped : Evaluations :=
  [("first_fit", mkEvaluation 2 2 1 (1#2) (17#20));
   ("best_fit", mkEvaluation 2 2 1 (1#5) (19#25))].

Lemma tie_break_is_enumeration_order_witness :
  (exists l1 l2,
     ev_tied = l1 ++ ("first_fit", mkEvaluation 2 2 1 (1#5) (19#25)) :: l2 /\
     forall x, x ∈ l1 -> boats_placed x.2 < 2) /\
  name <$> findBestStrategy ev_tied_swapped = Some "first_fit".
Proof.
  apply (tie_break_is_enumeration_order ev_tied ev_tied_swapped
           (mkBest "first_fit" (mkEvaluation 2 2 1 (1#5) (19#25)))).
  - repeat constructor.
  - reflexivity.
Defined.

(** *** Further properties of the selection *)

(** The better of two selections: the later one only wins with strictly more
    boats placed. *)
Definition better (a b : option BestStrategy) : option BestStrategy :=
  match a, b with
  | Some x, Some y =>
      if boats_placed (evaluation y) >? boats_placed (evaluation x)
      then Some y else Some x
  | Some x, None => Some x
  | None, r => r
  end.

(** The loop started from an accumulator, against the loop started afresh. *)
Definition combine (acc r : Acc) : Acc := if snd r >? snd acc then r else acc.

Lemma fold_visit_shape (l : Evaluations) :
  fold_left visit l (None, 0) =
  match findBestStrategy l with
  | Some b => (Some b, boats_placed (evaluation b))
  | None => (None, 0)
  end.
Proof.
  unfold findBestStrategy.
  destruct (fold_visit_spec l (None, 0))
    as [[Heq _]|(l1 & n & e & l2 & _ & Heq & _)]; by rewrite Heq.
Qed.

Lemma fold_visit_combine (l : Evaluations) acc :
  0 <= snd acc ->
  fold_left visit l acc = combine acc (fold_left visit l (None, 0)).
Proof.
  intros Hacc. induction l as [|[n e] l IH] using rev_ind.
  - unfold combine. cbn. destruct (Z.gtb_spec 0 (snd acc)); [lia|done].
  - rewrite !fold_visit_snoc, IH.
    generalize (fold_left visit l (None, 0)). intros r.
    unfold combine, visit. cbn [snd].
    destruct (Z.gtb_spec (snd r) (snd acc));
      destruct (Z.gtb_spec (boats_placed e) (snd r));
      destruct (Z.gtb_spec (boats_placed e) (snd acc)); cbn [snd];
      repeat match goal with
             | |- context [?a >? ?b] => destruct (Z.gtb_spec a b)
             end; try done; lia.
Qed.

(** X1: No strategy is selected exactly when no evaluation places a boat; this
    covers the empty evaluation set. *)
Theorem findBestStrategy_null_iff (evaluations : Evaluations) :
  findBestStrategy evaluations = None <->
  Forall (fun x => boats_placed x.2 <= 0) evaluations.
Proof. rewrite Forall_forall. apply findBestStrategy_None. Qed.

(** X2: As soon as one strategy places a boat, a strategy is selected: it is an
    entry of the set, no entry places more boats, and every entry enumerated
    before it places strictly fewer. *)
Theorem findBestStrategy_first_maximum (evaluations : Evaluations) n e :
  (n, e) ∈ evaluations -> 0 < boats_placed e ->
  exists b l1 l2,
    findBestStrategy evaluations = Some b /\
    evaluations = l1 ++ (name b, evaluation b) :: l2 /\
    (forall x, x ∈ evaluations ->
       boats_placed x.2 <= boats_placed (evaluation b)) /\
    (forall x, x ∈ l1 -> boats_placed x.2 < boats_placed (evaluation b)).
Proof.
  intros Hin Hpos.
  destruct (findBestStrategy evaluations) as [b|] eqn:Hb.
  - destruct (findBestStrategy_Some _ _ Hb) as (l1 & l2 & Heq & _ & H1 & H2).
    exists b, l1, l2. repeat split; auto.
    rewrite Heq. intros x [Hx|Hx]%elem_of_app.
    + specialize (H1 x Hx). lia.
    + apply elem_of_cons in Hx as [->|Hx]; [simpl; lia|by apply H2].
  - pose proof (proj1 (findBestStrategy_None _) Hb _ Hin) as Hle.
    simpl in Hle. lia.
Qed.

Lemma findBestStrategy_first_maximum_witness :
  exists b l1 l2,
    findBestStrategy ev_tied = Some b /\
    ev_tied = l1 ++ (name b, evaluation b) :: l2 /\
    (forall x, x ∈ ev_tied ->
       boats_placed x.2 <= boats_placed (evaluation b)) /\
    (forall x, x ∈ l1 -> boats_placed x.2 < boats_placed (evaluation b)).
Proof.
  apply (findBestStrategy_first_maximum ev_tied "best_fit"
           (mkEvaluation 2 2 1 (1#2) (17#20))).
  - right. left.
  - reflexivity.
Defined.

(** X3: Selecting over two evaluation sets enumerated one after the other is
    selecting in each and keeping the better: the selection of the second
    set only wins with strictly more boats placed. *)
Theorem findBestStrategy_app (l1 l2 : Evaluations) :
  findBestStrategy (l1 ++ l2) =
  better (findBestStrategy l1) (findBestStrategy l2).
Proof.
  unfold findBestStrategy at 1. rewrite fold_left_app, fold_visit_combine.
  - rewrite (fold_visit_shape l1), (fold_visit_shape l2). unfold combine, better.
    destruct (findBestStrategy l1) as [a|] eqn:Ha,
             (findBestStrategy l2) as [b|] eqn:Hb; cbn [snd fst].
    + by destruct (boats_placed (evaluation b) >? boats_placed (evaluation a)).
    + destruct (findBestStrategy_Some _ _ Ha) as (_ & _ & _ & Hpos & _).
      destruct (Z.gtb_spec 0 (boats_placed (evaluation a))); [lia|done].
    + destruct (findBestStrategy_Some _ _ Hb) as (_ & _ & _ & Hpos & _).
      destruct (Z.gtb_spec (boats_placed (evaluation b)) 0); [done|lia].
    + done.
  - rewrite fold_visit_shape. destruct (findBestStrategy l1) as [a|] eqn:Ha; [|done].
    destruct (findBestStrategy_Some _ _ Ha) as (_ & _ & _ & Hpos & _).
    cbn. lia.
Qed.

End Selection.

(** ** The assignment engine

    The strategies, the feasibility checker and the evaluator run on the
    server; the front end only receives their output. *)

Module Engine.

(** Modelled from the spec: the interval of the data model (section 3),
    half-open, [[i_start, i_end)]; the engine's types are absent from the
    sources. *)
Record Interval : Type := mkInterval { i_start : Z; i_end : Z }.

(** Modelled from the spec: the Boat of section 3 (identifier, length, width,
    requested interval), absent from the sources. *)
Record Boat : Type := mkBoat {
  boat_id : Z;
  boat_length : Q;
  boat_width : Q;
  requested : Interval
}.

(** Modelled from the spec: the Slot of section 3 (identifier, owning dock,
    physical and maximum boat dimensions, category, status, price), absent
    from the sources. *)
Record Slot : Type := mkSlot {
  slot_id : Z;
  dock_id : Z;
  slot_width : Q;
  slot_length : Q;
  max_boat_width : Q;
  max_boat_length : Q;
  category : string;
  status : string;
  price : Q
}.

(** Modelled from the spec: the Assignment of section 3 (boat, slot, effective
    interval, producing strategy), absent from the sources. *)
Record Assignment : Type := mkAssignment {
  a_boat : Z;
  a_slot : Z;
  a_interval : Interval;
  a_strategy : string
}.

(** Modelled from the spec: the feasibility checker (section 4.2), which is
    server code absent from the sources.  [fits] compares the boat with the
    slot's maximum boat dimensions. *)
Definition fits (b : Boat) (s : Slot) : bool :=
  Qle_bool (boat_length b) (max_boat_length s) &&
  Qle_bool (boat_width b) (max_boat_width s).

(** Modelled from the spec: the half-open intersection test of section 4.2,
    absent from the sources: [start_A < end_B] and [start_B < end_A]. *)
Definition overlaps (A B : Interval) : bool :=
  (i_start A <? i_end B) && (i_start B <? i_end A).

(** Modelled from the spec: [can_place] of section 4.2, absent from the
    sources: [fits] holds and the boat's interval overlaps no interval already
    assigned to the slot. *)
Definition can_place (b : Boat) (s : Slot) (existing : list Interval) : bool :=
  fits b s && forallb (fun iv => negb (overlaps (requested b) iv)) existing.

(** Modelled from the spec: the [existing_assignments_for_slot] argument of
    [can_place]: the intervals already assigned to a slot. *)
Definition intervals_of (sid : Z) (acc : list Assignment) : list Interval :=
  a_interval <$> filter (fun a => a_slot a = sid) acc.

(** Modelled from the spec: an effective interval "must stay within" the
    requested one (section 3): [within A B] when [A] stays inside [B]. *)
Definition within (A B : Interval) : Prop :=
  i_start B <= i_start A /\ i_end A <= i_end B.

(** Modelled from the spec: two assignments double-book a slot when they share
    it with overlapping intervals (sections 3 and 8). *)
Definition conflict (a1 a2 : Assignment) : bool :=
  (a_slot a1 =? a_slot a2) && overlaps (a_interval a1) (a_interval a2).

(** Modelled from the spec: zero double-booking (section 8): no two
    assignments, at different positions of the assignment set, share a slot
    with overlapping intervals. *)
Definition no_double_booking (l : list Assignment) : Prop :=
  forall i j a1 a2,
    i <> j -> l !! i = Some a1 -> l !! j = Some a2 -> conflict a1 a2 = false.

Lemma overlaps_sym A B : overlaps A B = overlaps B A.
Proof. unfold overlaps. apply andb_comm. Qed.

Lemma conflict_sym a1 a2 : conflict a1 a2 = conflict a2 a1.
Proof. unfold conflict. by rewrite Z.eqb_sym, overlaps_sym. Qed.

(** Shrinking an interval cannot create an overlap. *)
Lemma overlaps_within A A' B :
  within A' A -> overlaps A B = false -> overlaps A' B = false.
Proof.
  unfold within, overlaps. intros [H1 H2] H.
  apply andb_false_iff in H. apply andb_false_iff.
  destruct H as [H|H]; apply Z.ltb_ge in H; [left|right]; apply Z.ltb_ge; lia.
Qed.

(** Appending an assignment that conflicts with none of the others keeps the
    set free of double-booking. *)
Lemma no_double_booking_snoc acc a :
  no_double_booking acc ->
  (forall x, x ∈ acc -> conflict a x = false) ->
  no_double_booking (acc ++ [a]).
Proof.
  intros Hacc Ha i j a1 a2 Hij H1 H2.
  apply lookup_snoc_Some in H1 as [[_ H1]|[Hi <-]];
    apply lookup_snoc_Some in H2 as [[_ H2]|[Hj <-]].
  - by apply (Hacc i j).
  - rewrite conflict_sym. eapply Ha, list_elem_of_lookup_2, H1.
  - eapply Ha, list_elem_of_lookup_2, H2.
  - lia.
Qed.

Section Strategy.

(** Modelled from the spec: a strategy of the library (section 4.3), absent
    from the sources.  Strategies differ only in the ordering heuristic
    [order] and the slot-selection rule [choose], which picks among the slots
    that [can_place] accepts; [clip] is the effective interval, which stays
    within the requested one. *)
Variable strategy_name : string.
Variable order : list Boat -> list Boat.
Variable choose : Boat -> list Slot -> list Assignment -> option Slot.
Variable clip : Boat -> Slot -> Interval.

Hypothesis choose_candidate :
  forall b candidates acc s, choose b candidates acc = Some s -> s ∈ candidates.
Hypothesis clip_within : forall b s, within (clip b s) (requested b).

(** Modelled from the spec: the slots that [can_place] accepts for a boat,
    given what the run has assigned so far (every placement decision goes
    through [can_place], section 4.2). *)
Definition feasible_slots (slots : list Slot) (acc : list Assignment) (b : Boat) :
  list Slot :=
  filter (fun s => can_place b s (intervals_of (slot_id s) acc) = true) slots.

(** Modelled from the spec: one placement step of a strategy; a boat that
    cannot be placed is left out of the result (section 4.3). *)
Definition place (slots : list Slot) (acc : list Assignment) (b : Boat) :
  list Assignment :=
  match choose b (feasible_slots slots acc b) acc with
  | Some s => acc ++ [mkAssignment (boat_id b) (slot_id s) (clip b s) strategy_name]
  | None => acc
  end.

(** Modelled from the spec: a strategy run, from the empty accumulator over
    the boats in the strategy's order (section 4.3). *)
Definition run_strategy (boats : list Boat) (slots : list Slot) : list Assignment :=
  fold_left (place slots) (order boats) [].

(** A slot accepted by [can_place] yields an assignment that conflicts with
    nothing already in the accumulator. *)
Lemma can_place_no_conflict b s acc x :
  can_place b s (intervals_of (slot_id s) acc) = true ->
  x ∈ acc ->
  conflict (mkAssignment (boat_id b) (slot_id s) (clip b s) strategy_name) x = false.
Proof.
  unfold can_place, conflict. cbn [a_slot a_interval].
  intros [_ Hall]%andb_true_iff Hx.
  destruct (Z.eqb_spec (slot_id s) (a_slot x)) as [Heq|]; [|done].
  cbn [andb]. rewrite forallb_forall in Hall.
  assert (negb (overlaps (requested b) (a_interval x)) = true) as Hno.
  { apply Hall, list_elem_of_In, list_elem_of_fmap_2, list_elem_of_filter. auto. }
  apply negb_true_iff in Hno.
  by apply overlaps_within with (A := requested b).
Qed.

Lemma place_no_double_booking slots acc b :
  no_double_booking acc -> no_double_booking (place slots acc b).
Proof.
  intros Hacc. unfold place.
  destruct (choose b (feasible_slots slots acc b) acc) as [s|] eqn:Hs; [|done].
  apply no_double_booking_snoc; [done|]. intros x Hx.
  apply choose_candidate in Hs.
  apply list_elem_of_filter in Hs as [Hcan _].
  by apply (can_place_no_conflict b s acc).
Qed.

Lemma fold_place_no_double_booking slots boats acc :
  no_double_booking acc -> no_double_booking (fold_left (place slots) boats acc).
Proof.
  revert acc. induction boats as [|b boats IH]; intros acc Hacc; cbn [fold_left].
  - done.
  - by apply IH, place_no_double_booking.
Qed.

(** C3: in the assignment set produced by one strategy run, no two
    assignments share a slot with overlapping half-open intervals, whatever
    the ordering heuristic and the slot-selection rule of the strategy. *)
Theorem run_strategy_no_double_booking (boats : list Boat) (slots : list Slot) :
  no_double_booking (run_strategy boats slots).
Proof.
  unfold run_strategy. apply fold_place_no_double_booking.
  intros i j a1 a2 _ H. by rewrite lookup_nil in H.
Qed.

End Strategy.

(** Modelled from the spec: the first-fit family of section 4.3 (input order,
    first slot satisfying [can_place], requested interval kept). *)
Definition first_fit : list Boat -> list Slot -> list Assignment :=
  run_strategy "first_fit" (fun boats => boats)
    (fun _ candidates _ => head candidates) (fun b _ => requested b).

(** Modelled from the spec: the randomized-restart family of section 4.3:
    first-fit over the boats in the order [shuffle seed], once per seed,
    keeping the best-scoring repetition. *)
Definition randomized_restart (shuffle : nat -> list Boat -> list Boat)
    (score : list Assignment -> Q) (seeds : list nat)
    (boats : list Boat) (slots : list Slot) : list Assignment :=
  fold_left
    (fun best seed =>
       let candidate :=
         run_strategy "randomized_restart" (shuffle seed)
           (fun _ candidates _ => head candidates) (fun b _ => requested b)
           boats slots in
       if Qle_bool (score candidate) (score best) then best else candidate)
    seeds [].

(** The repetition kept by the restarts is free of double-booking too. *)
Lemma randomized_restart_no_double_booking shuffle score seeds boats slots :
  no_double_booking (randomized_restart shuffle score seeds boats slots).
Proof.
  unfold randomized_restart.
  assert (no_double_booking []) as Hnil.
  { intros i j a1 a2 _ H. by rewrite lookup_nil in H. }
  revert Hnil. generalize (@nil Assignment).
  induction seeds as [|seed seeds IH]; intros best Hbest; cbn [fold_left]; [done|].
  apply IH. destruct (Qle_bool _ _); [done|].
  unfold run_strategy. apply fold_place_no_double_booking.
  - intros b candidates acc s H. by apply head_Some_elem_of.
  - intros b s. unfold within. lia.
  - intros i j a1 a2 _ H. by rewrite lookup_nil in H.
Qed.

(** Scenario A of the specification: three boats of length 6, two slots of
    maximum boat length 10; the first two stays overlap, the third follows. *)
Definition scenario_boats : list Boat :=
  [mkBoat 1 6 2 (mkInterval 0 10);
   mkBoat 2 6 2 (mkInterval 5 15);
   mkBoat 3 6 2 (mkInterval 10 20)].

Definition scenario_slots : list Slot :=
  [mkSlot 1 1 4 12 3 10 "flexible" "available" 200;
   mkSlot 2 1 4 12 3 10 "flexible" "available" 200].

Example first_fit_scenario :
  first_fit scenario_boats scenario_slots =
  [mkAssignment 1 1 (mkInterval 0 10) "first_fit";
   mkAssignment 2 2 (mkInterval 5 15) "first_fit";
   mkAssignment 3 1 (mkInterval 10 20) "first_fit"].
Proof. reflexivity. Qed.

Lemma run_strategy_no_double_booking_witness :
  no_double_booking (first_fit scenario_boats scenario_slots).
Proof.
  apply (run_strategy_no_double_booking "first_fit" (fun boats => boats)
           (fun _ candidates _ => head candidates) (fun b _ => requested b)).
  - intros b candidates acc s H. by apply head_Some_elem_of.
  - intros b s. unfold within. lia.
Defined.

End Engine.

(** ** services/api.js: the optimisation request *)

Module Api.

(** Values of the query parameters sent by the optimisation call. *)
Inductive ParamValue : Type :=
| PNames (names : list string)
| PFlag (flag : bool).

(** An [axios.post(url, data, { params })] call. *)
Record Request : Type := mkRequest {
  method : string;
  url : string;
  data : option (list (string * ParamValue));
  params : list (string * ParamValue)
}.

(** [runOptimization: (strategy_names, run_in_background = false) => ...];
    an omitted argument is [None]. *)
Definition runOptimization (strategy_names : list string)
    (run_in_background : option bool) : Request :=
  let run_in_background := default false run_in_background in
  mkRequest "POST" "/api/optimize" None
    [("strategy_names", PNames strategy_names);
     ("run_in_background", PFlag run_in_background)].

(** The field names a request carries, in its body or in its parameters. *)
Definition fields (r : Request) : list string :=
  (default [] (data r)).*1 ++ (params r).*1.

(** The run request of the specification's interface section. *)
Definition run_request_fields : list string :=
  ["boats"; "slots"; "strategy_names"; "run_in_background"; "config"].

Definition carries_run_request (r : Request) : bool :=
  forallb (fun f => bool_decide (f ∈ fields r)) run_request_fields.

(** C6 (as stated, refuted): the request for the strategy list
    [["first_fit"]] has neither boats, slots nor a configuration. *)
Lemma run_request_fields_refuted :
  ~ (forall names background,
       carries_run_request (runOptimization names background) = true).
Proof.
  intros H. specialize (H ["first_fit"] None). vm_compute in H. discriminate H.
Qed.

(** C6 (amended): every run request is a POST to [/api/optimize] without a
    body whose parameters are exactly [strategy_names] and
    [run_in_background], in this order, with the values given by the caller;
    [run_in_background] is [false] when the caller gives no value. *)
Theorem runOptimization_request names background :
  method (runOptimization names background) = "POST" /\
  url (runOptimization names background) = "/api/optimize" /\
  data (runOptimization names background) = None /\
  fields (runOptimization names background) =
    ["strategy_names"; "run_in_background"] /\
  params (runOptimization names background) !! 0%nat =
    Some ("strategy_names", PNames names) /\
  params (runOptimization names background) !! 1%nat =
    Some ("run_in_background",
          PFlag match background with Some flag => flag | None => false end) /\
  runOptimization names None = runOptimization names (Some false).
Proof. by destruct background. Qed.

End Api.

(** ** Optimization page: [handleRunOptimization] *)

Module Optimization.

Import Selection.

(** An entry of [response.data.strategies[name]]. *)
Record RawPlacement : Type := mkRaw {
  raw_boat_id : Z;
  raw_slot_id : Z;
  raw_start_time : string;
  raw_end_time : string
}.

(** An entry of [strategy_results[name].placements]. *)
Record Placement : Type := mkPlacement {
  boat_id : Z;
  slot_id : Z;
  start_time : string;
  end_time : string;
  strategy_name : string
}.

(** [response.data.gpt_analysis]: the narrative; [narrative_other] are its
    keys other than [recommendations] and the ones the page overwrites. *)
Record GptAnalysis : Type := mkGpt {
  narrative_recommendations : option (list string);
  narrative_other : list (string * string)
}.

Record ResponseData : Type := mkData {
  evaluations : option Evaluations;
  strategies : option (list (string * list RawPlacement));
  gpt_analysis : option GptAnalysis
}.

(** The [gpt_analysis] object of the enhanced result. *)
Record Analysis : Type := mkAnalysis {
  gpt_inherited : list (string * string);
  gpt_best_strategy : string;
  gpt_auto_optimization : bool;
  gpt_boats_placed : Z;
  gpt_total_boats : Z;
  gpt_placement_rate : Q;
  gpt_recommendations : list string
}.

(** [enhancedResult]: the response spread, with three keys replaced. *)
Record EnhancedResult : Type := mkEnhanced {
  response : ResponseData;
  auto_selected_best : option BestStrategy;
  strategy_results : list (string * list Placement);
  analysis : Analysis
}.

Definition quote : string := String (Ascii.ascii_of_nat 34) EmptyString.

(** Template literal of the first recommendation. *)
Definition auto_recommendation (bestStrategy : option BestStrategy) : string :=
  ("Automatisk optimering valde strategin " +:+ quote +:+
   default "undefined" (name <$> bestStrategy) +:+ quote +:+
   " som placerar flest båtar (" +:+
   pretty (orZ (boats_placed ∘ evaluation <$> bestStrategy) 0) +:+ " av " +:+
   pretty (orZ (total_boats ∘ evaluation <$> bestStrategy) 0) +:+ ").")%string.

(** Body of the loop over [Object.entries(response.data.strategies)]. *)
Definition to_strategy_result (entry : string * list RawPlacement) :
  string * list Placement :=
  let '(strategyName, placements) := entry in
  (strategyName,
   (fun placement =>
      mkPlacement (raw_boat_id placement) (raw_slot_id placement)
        (raw_start_time placement) (raw_end_time placement) strategyName)
     <$> placements).

(** The object literal [enhancedResult] and the conversion loop that fills
    its [strategy_results]. *)
Definition enhancedResult (d : ResponseData) : EnhancedResult :=
  let bestStrategy := findBestStrategy (default [] (evaluations d)) in
  mkEnhanced d bestStrategy
    (match strategies d with
     | Some entries => to_strategy_result <$> entries
     | None => []
     end)
    (mkAnalysis
       (default [] (narrative_other <$> gpt_analysis d))
       (orS (name <$> bestStrategy) "Ingen strategi kunde utvärderas")
       true
       (orZ (boats_placed ∘ evaluation <$> bestStrategy) 0)
       (orZ (total_boats ∘ evaluation <$> bestStrategy) 0)
       (orQ (placement_rate ∘ evaluation <$> bestStrategy) 0)
       (auto_recommendation bestStrategy ::
        default [] (gpt_analysis d ≫= narrative_recommendations))).

(** An entry of the strategy catalogue, [GET /api/strategies]. *)
Record StrategyInfo : Type := mkInfo { info_name : string; description : string }.

(** The promise returned by the API call. *)
Inductive Reply : Type :=
| Resolved (d : ResponseData)
| Rejected.

(** React state of the page. *)
Record Page : Type := mkPage {
  loading : bool;
  error : string;
  progress : Z;
  currentStrategy : string;
  optimizationResult : option EnhancedResult
}.

(** What the handler does outside the page: the four [localStorage.setItem]
    calls (the value of the time stamp left out) and the
    [optimizationComplete] event. *)
Inductive Effect : Type :=
| StoreResult (r : EnhancedResult)
| StoreTimestamp
| StoreStrategy (s : string)
| StoreBoats (n : Z)
| OptimizationComplete (r : EnhancedResult) (bestStrategy : option BestStrategy).

(** The [localStorage.setItem] calls of a run, in the order of the source. *)
Definition writes (r : EnhancedResult) : list Effect :=
  [StoreResult r;
   StoreTimestamp;
   StoreStrategy (orS (name <$> auto_selected_best r) "Okänd");
   StoreBoats (orZ (boats_placed ∘ evaluation <$> auto_selected_best r) 0)].

(** [setItem] stores an item or throws (quota exceeded, storage disabled):
    the writes made before the first one that throws, and whether all were
    made. *)
Fixpoint store (setItem : Effect -> bool) (items : list Effect) :
  list Effect * bool :=
  match items with
  | [] => ([], true)
  | item :: rest =>
      if setItem item
      then (item :: (store setItem rest).1, (store setItem rest).2)
      else ([], false)
  end.

(** [handleRunOptimization].  The result is set on the page before the
    writes to [localStorage]; a write that throws is caught like a rejected
    request, after the page has received the result and before the event is
    dispatched. *)
Definition handleRunOptimization (strategies : list StrategyInfo)
    (backend : Api.Request -> Reply) (setItem : Effect -> bool) (page : Page) :
  Page * list Effect :=
  let allStrategyNames := info_name <$> strategies in
  if bool_decide (length allStrategyNames = 0%nat) then
    (mkPage false "Inga strategier tillgängliga för optimering." 0 ""
       (optimizationResult page), [])
  else
    match backend (Api.runOptimization allStrategyNames None) with
    | Resolved d =>
        let r := enhancedResult d in
        let bestStrategy := auto_selected_best r in
        if (store setItem (writes r)).2 then
          (mkPage false "" 100 "Optimering slutförd!" (Some r),
           (store setItem (writes r)).1 ++ [OptimizationComplete r bestStrategy])
        else
          (mkPage false
             "Ett fel uppstod vid optimering. Kontrollera att API-servern är igång."
             0 "" (Some r),
           (store setItem (writes r)).1)
    | Rejected =>
        (mkPage false
           "Ett fel uppstod vid optimering. Kontrollera att API-servern är igång."
           0 "" (optimizationResult page), [])
    end.

(** The same response with another narrative. *)
Definition with_narrative (d : ResponseData) (g : option GptAnalysis) :
  ResponseData :=
  mkData (evaluations d) (strategies d) g.

(** What a run result holds besides the narrative: the evaluations, the
    assignments as received and as converted, and the selected strategy. *)
Definition core (r : EnhancedResult) :
  option Evaluations * option (list (string * list RawPlacement)) *
  option BestStrategy * list (string * list Placement) :=
  (evaluations (response r), strategies (response r),
   auto_selected_best r, strategy_results r).

(** [localStorage] accepts every item of a list. *)
Definition accepts (setItem : Effect -> bool) (items : list Effect) : Prop :=
  Forall (fun item => setItem item = true) items.

(** The handler completed with result [r]: the page shows it without error,
    the four items are stored and the event is dispatched. *)
Definition completed (out : Page * list Effect) (r : EnhancedResult) : Prop :=
  out.1 = mkPage false "" 100 "Optimering slutförd!" (Some r) /\
  out.2 = writes r ++ [OptimizationComplete r (auto_selected_best r)].

(** A converted placement list against the list received for the strategy
    [n]: same length and order, the four fields copied, the strategy's name
    added. *)
Definition converted (n : string) (raws : list RawPlacement)
    (placements : list Placement) : Prop :=
  Forall2 (fun raw p =>
             boat_id p = raw_boat_id raw /\ slot_id p = raw_slot_id raw /\
             start_time p = raw_start_time raw /\ end_time p = raw_end_time raw /\
             strategy_name p = n)
          raws placements.

(** The figures of the reported analysis are those of the selection. *)
Definition reports_selection (r : EnhancedResult) : Prop :=
  gpt_auto_optimization (analysis r) = true /\
  match auto_selected_best r with
  | Some b =>
      (name b <> "" -> gpt_best_strategy (analysis r) = name b) /\
      gpt_boats_placed (analysis r) = boats_placed (evaluation b) /\
      gpt_total_boats (analysis r) = total_boats (evaluation b) /\
      (gpt_placement_rate (analysis r) == placement_rate (evaluation b))%Q
  | None =>
      gpt_best_strategy (analysis r) = "Ingen strategi kunde utvärderas" /\
      gpt_boats_placed (analysis r) = 0 /\
      gpt_total_boats (analysis r) = 0 /\
      gpt_placement_rate (analysis r) = 0%Q
  end.

(** The result [r] is the one of the response [d]: its evaluations and
    assignments are those received, its selection is that of
    [findBestStrategy] on these evaluations, its [strategy_results] are the
    assignments converted strategy by strategy, and its analysis reports the
    selection. *)
Definition carries_response (d : ResponseData) (r : EnhancedResult) : Prop :=
  evaluations (response r) = evaluations d /\
  strategies (response r) = strategies d /\
  auto_selected_best r = findBestStrategy (default [] (evaluations d)) /\
  Forall2 (fun entry result =>
             result.1 = entry.1 /\ converted entry.1 entry.2 result.2)
          (default [] (strategies d)) (strategy_results r) /\
  reports_selection r.


(** A response for an empty boats list, as the evaluator of the specification
    would score it. *)
Definition no_boats_response : ResponseData :=
  mkData (Some [("first_fit", mkEvaluation 0 0 1 0 (7#10))])
         (Some [("first_fit", [])]) None.

Lemma orZ_zero x : orZ (Some x) 0 = x.
Proof. unfold orZ, truthyZ. by destruct (Z.eqb_spec x 0). Qed.

Lemma orQ_zero x : (orQ (Some x) 0 == x)%Q.
Proof.
  unfold orQ, truthyQ. destruct (Qeq_bool x 0) eqn:H; simpl; [|reflexivity].
  symmetry. by apply Qeq_bool_eq.
Qed.

(** The writes stop at the first item [setItem] refuses. *)
Lemma store_spec setItem items :
  ((store setItem items).2 = true /\ (store setItem items).1 = items /\
   accepts setItem items) \/
  ((store setItem items).2 = false /\
   exists item rest,
     items = (store setItem items).1 ++ item :: rest /\
     accepts setItem (store setItem items).1 /\ setItem item = false).
Proof.
  unfold accepts. induction items as [|item items IH]; cbn [store].
  - left. by repeat split.
  - destruct (setItem item) eqn:Hitem; cbn [fst snd].
    + destruct IH as [(Hok & Hmade & Hall)|(Hok & it & rest & Heq & Hall & Hit)].
      * left. rewrite Hok, Hmade. repeat split. by constructor.
      * right. split; [done|]. exists it, rest.
        split; [by rewrite <- app_comm_cons, <- Heq|].
        split; [by constructor|done].
    + right. split; [done|]. exists item, items. by repeat split.
Qed.

Lemma store_accepted setItem items :
  accepts setItem items -> store setItem items = (items, true).
Proof.
  unfold accepts. induction 1 as [|item items Hitem Hall IH]; cbn [store]; [done|].
  by rewrite Hitem, IH.
Qed.

(** Once the request has resolved the page holds the result of the response,
    whatever [localStorage] does. *)
Lemma handleRunOptimization_result catalogue backend setItem page d :
  catalogue <> [] ->
  backend (Api.runOptimization (info_name <$> catalogue) None) = Resolved d ->
  optimizationResult (handleRunOptimization catalogue backend setItem page).1 =
    Some (enhancedResult d).
Proof.
  intros Hne Hd. unfold handleRunOptimization.
  rewrite bool_decide_eq_false_2.
  - rewrite Hd. by destruct (store setItem (writes (enhancedResult d))).2.
  - rewrite length_fmap. by destruct catalogue.
Qed.

Lemma handleRunOptimization_resolved catalogue backend setItem page d :
  catalogue <> [] ->
  backend (Api.runOptimization (info_name <$> catalogue) None) = Resolved d ->
  accepts setItem (writes (enhancedResult d)) ->
  completed (handleRunOptimization catalogue backend setItem page) (enhancedResult d).
Proof.
  intros Hne Hd Hall. unfold handleRunOptimization.
  rewrite bool_decide_eq_false_2.
  - rewrite Hd, (store_accepted _ _ Hall). by split.
  - rewrite length_fmap. by destruct catalogue.
Qed.

Lemma to_strategy_result_converted entry :
  (to_strategy_result entry).1 = entry.1 /\
  converted entry.1 entry.2 (to_strategy_result entry).2.
Proof.
  destruct entry as [n raws]. split; [done|]. unfold converted. cbn.
  induction raws as [|raw raws IH]; constructor; [by repeat split|exact IH].
Qed.

Lemma enhancedResult_reports (d : ResponseData) :
  reports_selection (enhancedResult d).
Proof.
  unfold reports_selection, enhancedResult.
  cbn [auto_selected_best analysis gpt_auto_optimization gpt_best_strategy
       gpt_placement_rate gpt_boats_placed gpt_total_boats].
  split; [done|].
  destruct (findBestStrategy (default [] (evaluations d))) as [b|]; cbn.
  - split.
    + intros Hname. unfold truthyS.
      by destruct (String.eqb_spec (name b) "").
    + split; [apply orZ_zero|]. split; [apply orZ_zero|apply orQ_zero].
  - done.
Qed.

Lemma enhancedResult_carries (d : ResponseData) :
  carries_response d (enhancedResult d).
Proof.
  split; [done|]. split; [done|]. split; [done|].
  split; [|apply enhancedResult_reports].
  unfold enhancedResult. cbn [strategy_results].
  destruct (strategies d) as [entries|]; cbn [default]; [|constructor].
  change (id entries) with entries.
  induction entries as [|entry entries IH]; constructor; [|exact IH].
  apply to_strategy_result_converted.
Qed.

(** C4: a run whose response has no narrative completes, whenever the run
    itself does, with the result of the response: the evaluations and
    assignments received, the strategy [findBestStrategy] selects, the
    assignments converted and the figures of the selection reported.  That
    result agrees with the one of the same response with a narrative in
    everything but the narrative, which only adds its recommendations after
    the one the page writes itself; an empty narrative is like none. *)
Theorem narrative_is_additive catalogue page d g backend backend0 setItem :
  catalogue <> [] ->
  backend (Api.runOptimization (info_name <$> catalogue) None) =
    Resolved (with_narrative d g) ->
  backend0 (Api.runOptimization (info_name <$> catalogue) None) =
    Resolved (with_narrative d None) ->
  accepts setItem (writes (enhancedResult (with_narrative d None))) ->
  let r := enhancedResult (with_narrative d g) in
  let r0 := enhancedResult (with_narrative d None) in
  completed (handleRunOptimization catalogue backend0 setItem page) r0 /\
  carries_response d r0 /\
  gpt_recommendations (analysis r0) =
    [auto_recommendation (findBestStrategy (default [] (evaluations d)))] /\
  gpt_inherited (analysis r0) = [] /\
  optimizationResult (handleRunOptimization catalogue backend setItem page).1 =
    Some r /\
  (accepts setItem (writes r) ->
   completed (handleRunOptimization catalogue backend setItem page) r) /\
  carries_response d r /\
  core r0 = core r /\
  gpt_best_strategy (analysis r0) = gpt_best_strategy (analysis r) /\
  gpt_boats_placed (analysis r0) = gpt_boats_placed (analysis r) /\
  gpt_total_boats (analysis r0) = gpt_total_boats (analysis r) /\
  gpt_placement_rate (analysis r0) = gpt_placement_rate (analysis r) /\
  gpt_recommendations (analysis r) =
    gpt_recommendations (analysis r0) ++
    default [] (g ≫= narrative_recommendations) /\
  analysis (enhancedResult (with_narrative d (Some (mkGpt None [])))) =
    analysis r0.
Proof.
  intros Hne Hd Hd0 Hall r r0.
  split; [by apply handleRunOptimization_resolved|].
  split; [apply (enhancedResult_carries (with_narrative d None))|].
  split; [done|]. split; [done|].
  split; [by apply handleRunOptimization_result|].
  split; [intros Hall'; by apply handleRunOptimization_resolved|].
  split; [apply (enhancedResult_carries (with_narrative d g))|].
  by repeat split.
Qed.

Definition sample_catalogue : list StrategyInfo :=
  [mkInfo "first_fit" "first feasible slot"; mkInfo "best_fit" "tightest slot"].

Definition sample_page : Page := mkPage false "" 0 "" None.

Definition sample_response : ResponseData :=
  mkData (Some ev_tied)
         (Some [("first_fit", [mkRaw 1 4 "2025-06-01" "2025-06-08";
                               mkRaw 2 7 "2025-06-03" "2025-06-05"]);
                ("best_fit", [mkRaw 1 7 "2025-06-01" "2025-06-08";
                              mkRaw 2 4 "2025-06-03" "2025-06-05"])])
         None.

Definition sample_narrative : GptAnalysis :=
  mkGpt (Some ["Flytta stora båtar till brygga D."]) [("summary", "ok")].

Lemma narrative_is_additive_witness :
  let r := enhancedResult (with_narrative sample_response (Some sample_narrative)) in
  let r0 := enhancedResult (with_narrative sample_response None) in
  completed (handleRunOptimization sample_catalogue
               (fun _ => Resolved (with_narrative sample_response None))
               (fun _ => true) sample_page) r0 /\
  carries_response sample_response r0 /\
  gpt_recommendations (analysis r0) =
    [auto_recommendation
       (findBestStrategy (default [] (evaluations sample_response)))] /\
  gpt_inherited (analysis r0) = [] /\
  optimizationResult
    (handleRunOptimization sample_catalogue
       (fun _ => Resolved (with_narrative sample_response (Some sample_narrative)))
       (fun _ => true) sample_page).1 = Some r /\
  (accepts (fun _ => true) (writes r) ->
   completed (handleRunOptimization sample_catalogue
                (fun _ => Resolved (with_narrative sample_response
                                      (Some sample_narrative)))
                (fun _ => true) sample_page) r) /\
  carries_response sample_response r /\
  core r0 = core r /\
  gpt_best_strategy (analysis r0) = gpt_best_strategy (analysis r) /\
  gpt_boats_placed (analysis r0) = gpt_boats_placed (analysis r) /\
  gpt_total_boats (analysis r0) = gpt_total_boats (analysis r) /\
  gpt_placement_rate (analysis r0) = gpt_placement_rate (analysis r) /\
  gpt_recommendations (analysis r) =
    gpt_recommendations (analysis r0) ++
    default [] (Some sample_narrative ≫= narrative_recommendations) /\
  analysis (enhancedResult
              (with_narrative sample_response (Some (mkGpt None [])))) =
    analysis r0.
Proof.
  apply (narrative_is_additive sample_catalogue sample_page sample_response
           (Some sample_narrative)
           (fun _ => Resolved (with_narrative sample_response
                                 (Some sample_narrative)))
           (fun _ => Resolved (with_narrative sample_response None))
           (fun _ => true)).
  - discriminate.
  - reflexivity.
  - reflexivity.
  - by repeat constructor.
Defined.

(** The reported placement rate is the one received for the selected
    strategy: the page passes it on whenever a strategy is selected. *)
Lemma reported_rate_of_selection (d : ResponseData) b :
  auto_selected_best (enhancedResult d) = Some b ->
  (gpt_placement_rate (analysis (enhancedResult d)) ==
   placement_rate (evaluation b))%Q.
Proof.
  intros Hb. pose proof (enhancedResult_reports d) as [_ H].
  rewrite Hb in H. apply H.
Qed.


(** *** Further properties of the optimisation page *)

(** The recommendation paragraph of the result panel:
    [recommendations && recommendations.length > 0 ? recommendations[0] : ...]. *)
Definition shown_recommendation (r : EnhancedResult) : string :=
  match gpt_recommendations (analysis r) with
  | first :: _ => first
  | [] => "Ingen specifik rekommendation tillgänglig."
  end.

(** [handleApplyStrategy]: the error it sets, if any. *)
Definition handleApplyStrategy (page : Page) : option string :=
  match optimizationResult page ≫= auto_selected_best with
  | Some _ => None
  | None => Some "Ingen strategi vald att applicera."
  end.

(** X4: A run ends in one of three ways and never leaves the page loading.
    Either the request resolved and [localStorage] took the four items: the
    page shows the result without error, and that result is stored and
    announced.  Or the request resolved and a write to [localStorage] threw:
    an error is shown with progress 0, the page nevertheless holds the new
    result, the items written before the failing one stay written, and no
    event is sent.  Or there was no strategy to run or the request failed: an
    error is shown, the previous result stays on the page, nothing is stored
    and no event is sent. *)
Theorem handleRunOptimization_outcome catalogue backend setItem page :
  loading (handleRunOptimization catalogue backend setItem page).1 = false /\
  ((catalogue <> [] /\
    exists d,
      backend (Api.runOptimization (info_name <$> catalogue) None) = Resolved d /\
      accepts setItem (writes (enhancedResult d)) /\
      completed (handleRunOptimization catalogue backend setItem page)
        (enhancedResult d)) \/
   (catalogue <> [] /\
    exists d item rest,
      backend (Api.runOptimization (info_name <$> catalogue) None) = Resolved d /\
      writes (enhancedResult d) =
        (handleRunOptimization catalogue backend setItem page).2 ++ item :: rest /\
      accepts setItem (handleRunOptimization catalogue backend setItem page).2 /\
      setItem item = false /\
      error (handleRunOptimization catalogue backend setItem page).1 <> "" /\
      progress (handleRunOptimization catalogue backend setItem page).1 = 0 /\
      currentStrategy (handleRunOptimization catalogue backend setItem page).1 = "" /\
      optimizationResult (handleRunOptimization catalogue backend setItem page).1 =
        Some (enhancedResult d)) \/
   ((catalogue = [] \/
     backend (Api.runOptimization (info_name <$> catalogue) None) = Rejected) /\
    error (handleRunOptimization catalogue backend setItem page).1 <> "" /\
    progress (handleRunOptimization catalogue backend setItem page).1 = 0 /\
    optimizationResult (handleRunOptimization catalogue backend setItem page).1 =
      optimizationResult page /\
    (handleRunOptimization catalogue backend setItem page).2 = [])).
Proof.
  unfold handleRunOptimization. rewrite length_fmap.
  destruct catalogue as [|info catalogue]; cbn [List.length bool_decide].
  - rewrite bool_decide_eq_true_2 by done. split; [done|]. right. right.
    repeat split; auto; discriminate.
  - rewrite bool_decide_eq_false_2 by done.
    destruct (backend _) as [d|] eqn:Hd.
    + destruct (store_spec setItem (writes (enhancedResult d)))
        as [(Hok & Hmade & Hall)|(Hok & item & rest & Heq & Hall & Hitem)];
        rewrite Hok.
      * split; [done|]. left. split; [done|]. exists d.
        split; [done|]. split; [done|]. split; [done|]. cbn [snd].
        by rewrite Hmade.
      * split; [done|]. right. left. split; [done|]. exists d, item, rest.
        cbn [fst snd error progress currentStrategy optimizationResult].
        repeat split; auto; discriminate.
    + split; [done|]. right. right. repeat split; auto; discriminate.
Qed.

Example storage_failure_keeps_result :
  handleRunOptimization sample_catalogue (fun _ => Resolved sample_response)
    (fun _ => false) sample_page =
  (mkPage false
     "Ett fel uppstod vid optimering. Kontrollera att API-servern är igång."
     0 "" (Some (enhancedResult sample_response)), []).
Proof. reflexivity. Qed.

(** X5: The conversion to [strategy_results] keeps the strategies and their
    placements in the order received, copies the four fields of every
    placement and tags it with the name of the strategy it is listed under. *)
Theorem strategy_results_keep_placements (d : ResponseData) :
  (strategy_results (enhancedResult d)).*1 = (default [] (strategies d)).*1 /\
  forall k n placements,
    strategy_results (enhancedResult d) !! k = Some (n, placements) ->
    exists raws,
      default [] (strategies d) !! k = Some (n, raws) /\
      List.length placements = List.length raws /\
      forall i p, placements !! i = Some p ->
        strategy_name p = n /\
        exists raw, raws !! i = Some raw /\
          boat_id p = raw_boat_id raw /\ slot_id p = raw_slot_id raw /\
          start_time p = raw_start_time raw /\ end_time p = raw_end_time raw.
Proof.
  unfold enhancedResult. cbn [strategy_results].
  destruct (strategies d) as [entries|]; cbn [default].
  - split.
    + rewrite <- list_fmap_compose. apply list_fmap_ext. by intros i [n raws] _.
    + intros k n placements Hk. rewrite list_lookup_fmap in Hk.
      destruct (entries !! k) as [[n0 raws]|] eqn:Hentry; [|done].
      cbn in Hk. injection Hk as <- <-. exists raws. split; [exact Hentry|].
      split; [by rewrite length_fmap|].
      intros i p Hp. rewrite list_lookup_fmap in Hp.
      destruct (raws !! i) as [raw|]; [|done].
      cbn in Hp. injection Hp as <-. split; [done|]. by exists raw.
  - split; [done|]. intros k n placements Hk. by rewrite lookup_nil in Hk.
Qed.

(** After a run the recommendation paragraph always shows the sentence the
    page writes itself; the recommendations of the narrative come after it in
    the list and are never the one shown. *)
Theorem shown_recommendation_is_own (d : ResponseData) (g : option GptAnalysis) :
  shown_recommendation (enhancedResult (with_narrative d g)) =
    auto_recommendation (auto_selected_best (enhancedResult d)) /\
  forall k text,
    default [] (g ≫= narrative_recommendations) !! k = Some text ->
    gpt_recommendations (analysis (enhancedResult (with_narrative d g))) !! S k =
      Some text.
Proof. split; [reflexivity|]. intros k text Hk. exact Hk. Qed.

(** X6: Applying the best strategy right after a run is refused exactly when the
    run selected no strategy, that is when no evaluation places a boat. *)
Theorem handleApplyStrategy_refused catalogue backend setItem page d :
  catalogue <> [] ->
  backend (Api.runOptimization (info_name <$> catalogue) None) = Resolved d ->
  (handleApplyStrategy (handleRunOptimization catalogue backend setItem page).1 =
     Some "Ingen strategi vald att applicera." <->
   Forall (fun x => boats_placed x.2 <= 0) (default [] (evaluations d))) /\
  (handleApplyStrategy (handleRunOptimization catalogue backend setItem page).1 =
     None <->
   exists x, x ∈ default [] (evaluations d) /\ 0 < boats_placed x.2).
Proof.
  intros Hne Hd.
  unfold handleApplyStrategy.
  rewrite (handleRunOptimization_result catalogue backend setItem page d Hne Hd).
  cbn.
  destruct (findBestStrategy (default [] (evaluations d))) as [b|] eqn:Hb.
  - destruct (findBestStrategy_Some _ _ Hb) as (l1 & l2 & Heq & Hpos & _).
    split; split; try done.
    + intros Hall. rewrite Forall_forall in Hall.
      assert (boats_placed (evaluation b) <= 0); [|lia].
      apply (Hall (name b, evaluation b)). rewrite Heq.
      apply elem_of_app. right. left.
    + intros _. exists (name b, evaluation b). split; [|done].
      rewrite Heq. apply elem_of_app. right. left.
  - pose proof (proj1 (findBestStrategy_None _) Hb) as Hall.
    split; split; try done.
    + intros _. by apply Forall_forall.
    + intros (x & Hx & Hpos). specialize (Hall x Hx). lia.
Qed.

Lemma handleApplyStrategy_refused_witness :
  (handleApplyStrategy
     (handleRunOptimization sample_catalogue
        (fun _ => Resolved no_boats_response) (fun _ => true) sample_page).1 =
     Some "Ingen strategi vald att applicera." <->
   Forall (fun x => boats_placed x.2 <= 0)
     (default [] (evaluations no_boats_response))) /\
  (handleApplyStrategy
     (handleRunOptimization sample_catalogue
        (fun _ => Resolved no_boats_response) (fun _ => true) sample_page).1 =
     None <->
   exists x, x ∈ default [] (evaluations no_boats_response) /\
             0 < boats_placed x.2).
Proof.
  apply (handleApplyStrategy_refused sample_catalogue
           (fun _ => Resolved no_boats_response) (fun _ => true) sample_page
           no_boats_response).
  - discriminate.
  - reflexivity.
Defined.

End Optimization.

(** ** SlotList page: the static slot table *)

Module SlotList.

Record SlotRow : Type := mkRow {
  id : Z;
  slotId : string;
  dock : string;
  width : Q;
  length : Q;
  maxBoatWidth : Q;
  maxBoatLength : Q;
  depth : Q;
  facilities : list string;
  status : string;
  occupiedBy : string;
  bookedUntil : string;
  maintenanceHistory : list (string * string);
  pricePerDay : Z;
  pricePerMonth : Z
}.

(** The literal [slotsData]; decimal literals are kept exact. *)
Definition slotsData : list SlotRow :=
  [mkRow 1 "A01" "A" 3.5 12 3.2 11 2.5 ["El"; "Vatten"; "Wifi"]
     "occupied" "Sjöbris (Karl Nilsson)" "2025-09-30"
     [("2025-03-15", "Byte av elkabel");
      ("2024-11-10", "Inspektion av fästen")] 180 3500;
   mkRow 2 "A02" "A" 3.8 14 3.5 13 2.5 ["El"; "Vatten"; "Wifi"]
     "available" "" "" [("2025-04-10", "Byte av pollare")] 210 4100;
   mkRow 3 "A03" "A" 4.2 16 3.9 15 2.8
     ["El"; "Vatten"; "Wifi"; "Extra förtöjning"]
     "reserved" "Havsbris (Anna Ström)" "2025-08-15" [] 250 4800;
   mkRow 4 "B01" "B" 3.2 10 2.9 9 2.2 ["El"; "Vatten"]
     "maintenance" "" "" [("2025-05-10", "Reparation av brygga")] 160 3100;
   mkRow 5 "B02" "B" 3.5 12 3.2 11 2.5 ["El"; "Vatten"; "Wifi"]
     "occupied" "Skärgårdsdröm (Mikael Berg)" "2025-10-15" [] 180 3500;
   mkRow 6 "C01" "C" 5.0 20 4.7 19 3.5
     ["El"; "Vatten"; "Wifi"; "Extra förtöjning"; "Lås"]
     "occupied" "Vindseglare (Sofia Karlsson)" "2025-09-01"
     [("2025-02-20", "Förstärkning av brygga");
      ("2024-12-05", "Byte av eluttag")] 350 6500;
   mkRow 7 "C02" "C" 4.8 18 4.5 17 3.2
     ["El"; "Vatten"; "Wifi"; "Extra förtöjning"]
     "available" "" "" [] 320 6000;
   mkRow 8 "D01" "D" 6.0 25 5.7 24 4.0
     ["El"; "Vatten"; "Wifi"; "Extra förtöjning"; "Lås"; "Bevakning"]
     "occupied" "Havskryssaren (Johan Ekman)" "2025-10-30"
     [("2025-01-15", "Installation av nytt låssystem")] 450 8500;
   mkRow 9 "D02" "D" 5.5 22 5.2 21 3.8
     ["El"; "Vatten"; "Wifi"; "Extra förtöjning"; "Lås"]
     "available" "" "" [] 400 7800]%Q.

(** The slot invariant of the data model. *)
Definition slot_invariant (s : SlotRow) : Prop :=
  (maxBoatWidth s <= width s)%Q /\ (maxBoatLength s <= length s)%Q.

Definition slot_invariantb (s : SlotRow) : bool :=
  Qle_bool (maxBoatWidth s) (width s) && Qle_bool (maxBoatLength s) (length s).

Lemma slot_invariantb_spec s : slot_invariantb s = true <-> slot_invariant s.
Proof.
  unfold slot_invariantb, slot_invariant.
  rewrite andb_true_iff, !Qle_bool_iff. tauto.
Qed.

(** [String.prototype.includes]. *)
Fixpoint includes (s sub : string) : bool :=
  String.prefix sub s ||
  match s with
  | EmptyString => false
  | String _ rest => includes rest sub
  end.

Section Filter.

(** [String.prototype.toLowerCase], whose case mapping is left open. *)
Variable toLowerCase : string -> string.

(** The rows listed by the page for the current search term, status and
    dock selections. *)
Definition filteredSlots (searchTerm selectedStatus selectedDock : string) :
  list SlotRow :=
  List.filter
    (fun slot =>
       let matchesSearch :=
         includes (toLowerCase (slotId slot)) (toLowerCase searchTerm) ||
         (truthyS (occupiedBy slot) &&
          includes (toLowerCase (occupiedBy slot)) (toLowerCase searchTerm)) in
       let matchesStatus :=
         String.eqb selectedStatus "all" || String.eqb (status slot) selectedStatus in
       let matchesDock :=
         String.eqb selectedDock "all" || String.eqb (dock slot) selectedDock in
       matchesSearch && matchesStatus && matchesDock)
    slotsData.

End Filter.

(** C7: every slot of the table has a maximum boat width within its width
    and a maximum boat length within its length; so has every row the page
    lists after filtering. *)
Theorem slotsData_invariant :
  Forall slot_invariant slotsData /\
  forall toLowerCase searchTerm selectedStatus selectedDock,
    Forall slot_invariant
      (filteredSlots toLowerCase searchTerm selectedStatus selectedDock).
Proof.
  assert (Forall slot_invariant slotsData) as H.
  { apply Forall_forall. intros s Hs. apply slot_invariantb_spec.
    assert (forallb slot_invariantb slotsData = true) as Hall
      by (vm_compute; reflexivity).
    rewrite forallb_forall in Hall. by apply Hall, list_elem_of_In. }
  split; [done|]. intros lower term st dk. apply Forall_forall. intros s Hs.
  rewrite Forall_forall in H. apply H.
  apply list_elem_of_In in Hs. apply filter_In in Hs as [Hs _].
  by apply list_elem_of_In.
Qed.

Example filteredSlots_available :
  slotId <$> filteredSlots (fun s => s) "" "available" "all" = ["A02"; "C02"; "D02"].
Proof. reflexivity. Qed.

(** *** Further properties of the slot list *)

(** [sub] occurs somewhere in [s]. *)
Definition occurs_in (sub s : string) : Prop :=
  exists pre post, s = pre +:+ sub +:+ post.

(** What the three filters of the page ask of a row. *)
Definition listed (toLowerCase : string -> string)
    (searchTerm selectedStatus selectedDock : string) (slot : SlotRow) : Prop :=
  (occurs_in (toLowerCase searchTerm) (toLowerCase (slotId slot)) \/
   (occupiedBy slot <> "" /\
    occurs_in (toLowerCase searchTerm) (toLowerCase (occupiedBy slot)))) /\
  (selectedStatus = "all" \/ status slot = selectedStatus) /\
  (selectedDock = "all" \/ dock slot = selectedDock).

Lemma append_cons a s1 s2 : String a s1 +:+ s2 = String a (s1 +:+ s2).
Proof. reflexivity. Qed.

Lemma prefix_spec sub s :
  String.prefix sub s = true <-> exists post, s = sub +:+ post.
Proof.
  revert s. induction sub as [|a sub IH]; intros s.
  - split; [|by destruct s]. intros _. by exists s.
  - destruct s as [|b s]; cbn [String.prefix].
    + split; [done|]. intros [post H]. by rewrite append_cons in H.
    + destruct (Ascii.ascii_dec a b) as [->|Hne].
      * rewrite IH. split; intros [post H]; exists post.
        -- by rewrite append_cons, H.
        -- rewrite append_cons in H. congruence.
      * split; [done|]. intros [post H]. rewrite append_cons in H. congruence.
Qed.

Lemma includes_spec s sub : includes s sub = true <-> occurs_in sub s.
Proof.
  unfold occurs_in. induction s as [|a s IH]; cbn [includes].
  - rewrite orb_false_r, prefix_spec. split.
    + intros [post H]. by exists "", post.
    + intros (pre & post & H). destruct pre; [by exists post|].
      by rewrite append_cons in H.
  - rewrite orb_true_iff, prefix_spec, IH. split.
    + intros [[post H]|(pre & post & H)].
      * by exists "", post.
      * exists (String a pre), post. by rewrite append_cons, H.
    + intros (pre & post & H). destruct pre as [|b pre].
      * left. by exists post.
      * right. exists pre, post. rewrite append_cons in H. congruence.
Qed.

(** X7: A row is listed exactly when it is a row of the table, the search term
    occurs, case folded, in its slot number or in its non-empty occupant, and
    its status and dock are the selected ones (or ["all"] is selected). *)
Theorem filteredSlots_listed toLowerCase searchTerm selectedStatus selectedDock slot :
  slot ∈ filteredSlots toLowerCase searchTerm selectedStatus selectedDock <->
  slot ∈ slotsData /\
  listed toLowerCase searchTerm selectedStatus selectedDock slot.
Proof.
  unfold filteredSlots, listed.
  rewrite list_elem_of_In, filter_In, <- list_elem_of_In.
  rewrite !andb_true_iff, !orb_true_iff, andb_true_iff, !includes_spec.
  rewrite !String.eqb_eq. unfold truthyS. rewrite negb_true_iff, String.eqb_neq.
  tauto.
Qed.

(** X8: The page keeps the order of the table, and with an empty search term and
    both selections on ["all"] it lists the whole table. *)
Theorem filteredSlots_order toLowerCase searchTerm selectedStatus selectedDock :
  toLowerCase "" = "" ->
  filteredSlots toLowerCase searchTerm selectedStatus selectedDock
    `sublist_of` slotsData /\
  filteredSlots toLowerCase "" "all" "all" = slotsData.
Proof.
  intros Hempty. split.
  - unfold filteredSlots. generalize slotsData. intros l.
    induction l as [|x l IH]; cbn [List.filter]; [done|].
    match goal with |- context [if ?c then _ else _] => destruct c end.
    + by apply sublist_skip.
    + by apply sublist_cons.
  - unfold filteredSlots. generalize slotsData. intros l.
    induction l as [|x l IH]; [done|].
    cbn [List.filter]. rewrite IH, Hempty.
    assert (includes (toLowerCase (slotId x)) "" = true) as ->; [|done].
    apply includes_spec. by exists "", (toLowerCase (slotId x)).
Qed.

Lemma filteredSlots_order_witness :
  filteredSlots (fun s => s) "A0" "available" "all" `sublist_of` slotsData /\
  filteredSlots (fun s => s) "" "all" "all" = slotsData.
Proof.
  apply (filteredSlots_order (fun s => s) "A0" "available" "all"). reflexivity.
Defined.

End SlotList.

(** ** Visualization page: the harbour map *)

Module Visualization.

Import Optimization.

(** A slot as served by [GET /api/slots]. *)
Record Slot : Type := mkSlot {
  id : Z;
  slot_name : option string;
  slot_type : string;
  status : string;
  dock_id : Z;
  position_x : Z;
  position_y : Z;
  width : Z;
  length : Z;
  depth : option Q;
  max_width : option Q;
  price_per_day : option Z
}.

(** React state of the page.  The docks, the counters of the summary cards
    and the mouse position only feed the drawing and are left out. *)
Record State : Type := mkState {
  slots : list Slot;
  selectedSlot : option Slot;
  hoveredSlot : option Slot;
  optimizationResult : option EnhancedResult;
  selectedStrategy : option string;
  showOptimization : bool;
  strategyPlacements : gmap string (list Placement)
}.

Definition initial (fetched : list Slot) : State :=
  mkState fetched None None None None false ∅.

(** Truthiness of [selectedStrategy]: [null] and the empty string are falsy. *)
Definition truthy_name (n : option string) : option string :=
  match n with
  | Some s => if truthyS s then Some s else None
  | None => None
  end.

(** [Array.prototype.find] with the callback [p => p.slot_id === slotId]. *)
Definition find_slot (placements : list Placement) (slotId : Z) : option Placement :=
  snd <$> list_find (fun p => slot_id p = slotId) placements.

Definition getBoatInfoForSlot (st : State) (slotId : Z) : option Placement :=
  if negb (showOptimization st) then None
  else match truthy_name (selectedStrategy st) with
       | None => None
       | Some strategy =>
           match strategyPlacements st !! strategy with
           | None => None
           | Some placements => find_slot placements slotId
           end
       end.

Definition status_color (status : string) : string :=
  if String.eqb status "available" then "fill-green-500 stroke-green-700"
  else if String.eqb status "occupied" then "fill-red-500 stroke-red-700"
  else if String.eqb status "reserved" then "fill-yellow-500 stroke-yellow-700"
  else if String.eqb status "maintenance" then "fill-gray-500 stroke-gray-700"
  else "fill-blue-300 stroke-blue-500".

Definition base_color (slot : Slot) : string :=
  if String.eqb (slot_type slot) "permanent" then "fill-red-600 stroke-red-800"
  else status_color (status slot).

Definition getSlotColor (st : State) (slot : Slot) : string :=
  if showOptimization st then
    match truthy_name (selectedStrategy st) with
    | Some strategy =>
        match strategyPlacements st !! strategy with
        | Some placements =>
            match find_slot placements (id slot) with
            | Some _ => "fill-blue-500 stroke-blue-700"
            | None => base_color slot
            end
        | None => base_color slot
        end
    | None => base_color slot
    end
  else base_color slot.

(** Text drawn inside a slot: [boatInfo ? `B${boatInfo.boat_id}` : slot.id]. *)
Definition slot_label (st : State) (slot : Slot) : string :=
  match getBoatInfoForSlot st (id slot) with
  | Some boatInfo => "B" +:+ pretty (boat_id boatInfo)
  | None => pretty (id slot)
  end.

(** The boat block of the hover tooltip. *)
Definition tooltip_boat (st : State) : option Placement :=
  match hoveredSlot st with
  | Some slot =>
      if showOptimization st then getBoatInfoForSlot st (id slot) else None
  | None => None
  end.

Definition set_selectedSlot (st : State) (s : option Slot) : State :=
  mkState (slots st) s (hoveredSlot st) (optimizationResult st)
    (selectedStrategy st) (showOptimization st) (strategyPlacements st).

Definition handleSlotClick (st : State) (slot : Slot) : State :=
  if String.eqb (slot_type slot) "permanent" then st
  else set_selectedSlot st (Some slot).

(** [{ ...slot, status }]. *)
Definition with_status (slot : Slot) (status : string) : Slot :=
  mkSlot (id slot) (slot_name slot) (slot_type slot) status (dock_id slot)
    (position_x slot) (position_y slot) (width slot) (length slot)
    (depth slot) (max_width slot) (price_per_day slot).

(** The state updates of [handleStatusChange] (the request it then sends
    does not touch the state). *)
Definition handleStatusChange (st : State) (i : Z) (status : string) : State :=
  mkState
    ((fun slot => if id slot =? i then with_status slot status else slot)
       <$> slots st)
    (match selectedSlot st with
     | Some s => if id s =? i then Some (with_status s status) else Some s
     | None => None
     end)
    (hoveredSlot st) (optimizationResult st) (selectedStrategy st)
    (showOptimization st) (strategyPlacements st).

(** The loop that fills [placements] from [strategy_results]. *)
Definition extract_placements (results : list (string * list Placement)) :
  gmap string (list Placement) :=
  fold_left (fun placements entry => <[entry.1 := entry.2]> placements) results ∅.

Definition loadOptimizationResult (st : State) (saved : option EnhancedResult) : State :=
  match saved with
  | Some result =>
      mkState (slots st) (selectedSlot st) (hoveredSlot st) (Some result)
        (match auto_selected_best result with
         | Some best => Some (name best)
         | None => selectedStrategy st
         end)
        true (extract_placements (strategy_results result))
  | None => st
  end.

Definition handleOptimizationComplete (st : State) (detail : option EnhancedResult) :
  State :=
  match detail with
  | Some result =>
      mkState (slots st) (selectedSlot st) (hoveredSlot st) (Some result)
        (match truthy_name (name <$> auto_selected_best result) with
         | Some n => Some n
         | None => selectedStrategy st
         end)
        true (extract_placements (strategy_results result))
  | None => st
  end.

Definition handleMapDataUpdate (st : State) (detail : option EnhancedResult)
    (strategy : option string) : State :=
  match detail with
  | Some result =>
      mkState (slots st) (selectedSlot st) (hoveredSlot st) (Some result)
        (match truthy_name strategy with
         | Some n => Some n
         | None => selectedStrategy st
         end)
        (showOptimization st) (strategyPlacements st)
  | None => st
  end.

Definition toggleOptimizationView (st : State) : State :=
  mkState (slots st) (selectedSlot st) (hoveredSlot st) (optimizationResult st)
    (if negb (showOptimization st) then
       match optimizationResult st ≫= auto_selected_best with
       | Some best => Some (name best)
       | None => None
       end
     else None)
    (negb (showOptimization st)) (strategyPlacements st).

(** The user and window events the page reacts to. *)
Inductive Event : Type :=
| SlotClick (slot : Slot)
| StatusChange (i : Z) (status : string)
| ClosePanel
| MouseEnter (slot : Slot)
| MouseLeave
| ToggleView
| SelectStrategy (strategy : string)
| ClearOptimization
| LoadResult (saved : option EnhancedResult)
| OptimizationCompleted (detail : option EnhancedResult)
| MapDataUpdate (detail : option EnhancedResult) (strategy : option string).

Definition step (st : State) (e : Event) : State :=
  match e with
  | SlotClick slot => handleSlotClick st slot
  | StatusChange i status => handleStatusChange st i status
  | ClosePanel => set_selectedSlot st None
  | MouseEnter slot =>
      mkState (slots st) (selectedSlot st) (Some slot) (optimizationResult st)
        (selectedStrategy st) (showOptimization st) (strategyPlacements st)
  | MouseLeave =>
      mkState (slots st) (selectedSlot st) None (optimizationResult st)
        (selectedStrategy st) (showOptimization st) (strategyPlacements st)
  | ToggleView => toggleOptimizationView st
  | SelectStrategy strategy =>
      mkState (slots st) (selectedSlot st) (hoveredSlot st) (optimizationResult st)
        (Some strategy) (showOptimization st) (strategyPlacements st)
  | ClearOptimization =>
      mkState (slots st) (selectedSlot st) (hoveredSlot st) None
        None false (strategyPlacements st)
  | LoadResult saved => loadOptimizationResult st saved
  | OptimizationCompleted detail => handleOptimizationComplete st detail
  | MapDataUpdate detail strategy => handleMapDataUpdate st detail strategy
  end.

Definition run (st : State) (events : list Event) : State :=
  fold_left step events st.

(** The detail panel is drawn, and its status buttons are. *)
Definition panel_open (st : State) : bool :=
  negb (showOptimization st) && bool_decide (is_Some (selectedSlot st)).

Definition status_actions_shown (st : State) : bool :=
  match selectedSlot st with
  | Some s =>
      negb (showOptimization st) && negb (String.eqb (slot_type s) "permanent")
  | None => false
  end.

(** *** What the map shows for a slot *)

Lemma find_slot_Some placements slotId p :
  find_slot placements slotId = Some p <->
  exists i, placements !! i = Some p /\ slot_id p = slotId /\
    forall k r, placements !! k = Some r -> (k < i)%nat -> slot_id r <> slotId.
Proof.
  unfold find_slot. split.
  - destruct (list_find _ placements) as [[i q]|] eqn:H; [|done].
    intros [= <-]. apply list_find_Some in H. by exists i.
  - intros (i & H1 & H2 & H3).
    assert (list_find (fun p => slot_id p = slotId) placements = Some (i, p)) as ->.
    { by apply list_find_Some. }
    done.
Qed.

(** Outside the optimisation view, or without placements for the selected
    strategy, no boat is derived. *)
Lemma getBoatInfoForSlot_inactive st slotId :
  showOptimization st = false \/
  truthy_name (selectedStrategy st) = None \/
  (exists n, truthy_name (selectedStrategy st) = Some n /\
             strategyPlacements st !! n = None) ->
  getBoatInfoForSlot st slotId = None.
Proof.
  unfold getBoatInfoForSlot. intros [->|[->|(n & -> & ->)]]; cbn; try done.
  by destruct (showOptimization st).
  by destruct (showOptimization st).
Qed.

(** C8: with a strategy selected in the optimisation view, whenever some
    assignment [q], at position [j] of the strategy's placement list, is to
    the slot, the map derives exactly one boat for the slot: the assignment
    [p] at the least position [i <= j] whose [slot_id] is the slot's.  The
    label, the colour and the tooltip are those of [p]; an assignment to the
    slot at a later position is not the one shown. *)
Theorem map_shows_first_assignment st strategy placements slot j q :
  showOptimization st = true ->
  selectedStrategy st = Some strategy -> strategy <> "" ->
  strategyPlacements st !! strategy = Some placements ->
  placements !! j = Some q -> slot_id q = id slot ->
  exists i p,
    (i <= j)%nat /\ placements !! i = Some p /\ slot_id p = id slot /\
    (forall k r, placements !! k = Some r -> (k < i)%nat -> slot_id r <> id slot) /\
    getBoatInfoForSlot st (id slot) = Some p /\
    slot_label st slot = "B" +:+ pretty (boat_id p) /\
    getSlotColor st slot = "fill-blue-500 stroke-blue-700" /\
    (hoveredSlot st = Some slot -> tooltip_boat st = Some p).
Proof.
  intros Hshow Hsel Hne Hps Hj Hq.
  assert (truthy_name (selectedStrategy st) = Some strategy) as Htruthy.
  { rewrite Hsel. unfold truthy_name, truthyS.
    destruct (String.eqb_spec strategy ""); [done|reflexivity]. }
  destruct (find_slot placements (id slot)) as [p|] eqn:Hfind.
  - pose proof (proj1 (find_slot_Some _ _ _) Hfind) as (i & Hi & Hp & Hfirst).
    assert (getBoatInfoForSlot st (id slot) = Some p) as Hinfo.
    { unfold getBoatInfoForSlot. by rewrite Hshow, Htruthy, Hps. }
    exists i, p. repeat split; auto.
    + destruct (decide (i <= j)%nat) as [|Hgt]; [done|].
      exfalso. apply (Hfirst j q Hj); [lia|done].
    + unfold slot_label. by rewrite Hinfo.
    + unfold getSlotColor. by rewrite Hshow, Htruthy, Hps, Hfind.
    + intros Hh. unfold tooltip_boat. by rewrite Hh, Hshow.
  - exfalso. unfold find_slot in Hfind.
    destruct (list_find (fun p => slot_id p = id slot) placements) eqn:Hl; [done|].
    apply list_find_None in Hl. rewrite Forall_forall in Hl.
    apply (Hl q); [by eapply list_elem_of_lookup_2|done].
Qed.

(** A strategy that uses slot 4 twice, over disjoint weeks. *)
Definition sample_placements : list Placement :=
  [mkPlacement 11 4 "2025-06-01" "2025-06-08" "first_fit";
   mkPlacement 12 7 "2025-06-01" "2025-06-05" "first_fit";
   mkPlacement 13 4 "2025-06-08" "2025-06-15" "first_fit"].

Definition sample_slot : Slot :=
  mkSlot 4 None "guest" "available" 1 100 200 35 120 (Some 2.5%Q) (Some 3.2%Q)
    (Some 180).

Definition sample_permanent : Slot :=
  mkSlot 9 None "permanent" "occupied" 2 300 200 35 120 None None None.

Definition sample_state : State :=
  mkState [sample_slot; sample_permanent] None (Some sample_slot) None
    (Some "first_fit") true {["first_fit" := sample_placements]}.

Lemma map_shows_first_assignment_witness :
  exists i p,
    (i <= 2)%nat /\ sample_placements !! i = Some p /\ slot_id p = 4 /\
    (forall k r, sample_placements !! k = Some r -> (k < i)%nat -> slot_id r <> 4) /\
    getBoatInfoForSlot sample_state 4 = Some p /\
    slot_label sample_state sample_slot = "B" +:+ pretty (boat_id p) /\
    getSlotColor sample_state sample_slot = "fill-blue-500 stroke-blue-700" /\
    (hoveredSlot sample_state = Some sample_slot ->
     tooltip_boat sample_state = Some p).
Proof.
  apply (map_shows_first_assignment sample_state "first_fit" sample_placements
           sample_slot 2 (mkPlacement 13 4 "2025-06-08" "2025-06-15" "first_fit")).
  - reflexivity.
  - reflexivity.
  - discriminate.
  - reflexivity.
  - reflexivity.
  - reflexivity.
Defined.

Example second_stay_not_shown :
  getBoatInfoForSlot sample_state 4 =
    Some (mkPlacement 11 4 "2025-06-01" "2025-06-08" "first_fit") /\
  slot_label sample_state sample_slot = "B11".
Proof. split; reflexivity. Qed.

(** *** Selecting a slot *)

(** No permanent slot is the selected one. *)
Definition never_permanent (st : State) : Prop :=
  forall s, selectedSlot st = Some s -> slot_type s <> "permanent".

Lemma handleSlotClick_permanent st slot :
  slot_type slot = "permanent" -> handleSlotClick st slot = st.
Proof. unfold handleSlotClick. by intros ->. Qed.

Lemma handleSlotClick_other st slot :
  slot_type slot <> "permanent" ->
  handleSlotClick st slot = set_selectedSlot st (Some slot).
Proof.
  unfold handleSlotClick. intros H.
  by destruct (String.eqb_spec (slot_type slot) "permanent").
Qed.

Lemma step_never_permanent st e :
  never_permanent st -> never_permanent (step st e).
Proof.
  unfold never_permanent. intros Hst.
  destruct e as [slot|i status| |slot| | |strategy| |saved|detail|detail strategy];
    cbn [step]; try exact Hst.
  - unfold handleSlotClick.
    destruct (String.eqb_spec (slot_type slot) "permanent") as [|Hne]; [done|].
    cbn. by intros s [= <-].
  - cbn [handleStatusChange selectedSlot]. intros s.
    destruct (selectedSlot st) as [s0|] eqn:Hs0; [|done].
    specialize (Hst s0 eq_refl).
    destruct (id s0 =? i); by intros [= <-].
  - done.
  - unfold loadOptimizationResult. by destruct saved.
  - unfold handleOptimizationComplete. by destruct detail.
  - unfold handleMapDataUpdate. by destruct detail.
Qed.

Lemma run_never_permanent st events :
  never_permanent st -> never_permanent (run st events).
Proof.
  unfold run. revert st.
  induction events as [|e events IH]; intros st Hst; cbn [fold_left]; [done|].
  by apply IH, step_never_permanent.
Qed.

(** C9: in every state the page reaches from its initial one, a click on a
    permanent slot changes nothing and a click on any other slot makes
    exactly that slot the selected one; the selected slot is never permanent,
    so the detail panel, whenever open, is that of a non-permanent slot and
    shows its status buttons. *)
Theorem permanent_slot_not_selectable fetched events slot :
  let st := run (initial fetched) events in
  (slot_type slot = "permanent" -> handleSlotClick st slot = st) /\
  (slot_type slot <> "permanent" ->
   handleSlotClick st slot = set_selectedSlot st (Some slot) /\
   selectedSlot (handleSlotClick st slot) = Some slot) /\
  never_permanent st /\
  never_permanent (handleSlotClick st slot) /\
  (panel_open st = true -> status_actions_shown st = true).
Proof.
  intros st.
  assert (never_permanent st) as Hst.
  { apply run_never_permanent. intros s Hs. discriminate Hs. }
  split; [apply handleSlotClick_permanent|].
  split; [intros H; by rewrite handleSlotClick_other|].
  split; [done|]. split; [apply (step_never_permanent st (SlotClick slot) Hst)|].
  unfold panel_open, status_actions_shown.
  destruct (selectedSlot st) as [s|] eqn:Hs.
  - specialize (Hst s Hs). intros [-> _]%andb_true_iff. cbn.
    by destruct (String.eqb_spec (slot_type s) "permanent").
  - intros [_ H]%andb_true_iff. apply bool_decide_eq_true in H.
    by destruct H.
Qed.

Lemma permanent_slot_not_selectable_witness :
  let st := run (initial [sample_slot; sample_permanent])
              [SlotClick sample_slot; StatusChange 4 "reserved"] in
  handleSlotClick st sample_permanent = st /\
  selectedSlot (handleSlotClick st sample_slot) = Some sample_slot /\
  selectedSlot st = Some (with_status sample_slot "reserved").
Proof.
  intros st.
  destruct (permanent_slot_not_selectable [sample_slot; sample_permanent]
              [SlotClick sample_slot; StatusChange 4 "reserved"] sample_permanent)
    as (Hperm & _).
  destruct (permanent_slot_not_selectable [sample_slot; sample_permanent]
              [SlotClick sample_slot; StatusChange 4 "reserved"] sample_slot)
    as (_ & Hother & _).
  split; [apply Hperm; reflexivity|].
  split; [apply Hother; discriminate|reflexivity].
Defined.

(** *** Further properties of the harbour map *)

(** The counters of the summary cards, computed when the slots are loaded
    and after every status change. *)
Record Stats : Type := mkStats {
  totalGuest : nat;
  availableGuest : nat;
  totalFlex : nat;
  availableFlex : nat
}.

Definition computeStats (slots : list Slot) : Stats :=
  let guestSlots := List.filter (fun slot => String.eqb (slot_type slot) "guest") slots in
  let flexSlots := List.filter (fun slot => String.eqb (slot_type slot) "flex") slots in
  mkStats
    (List.length guestSlots)
    (List.length (List.filter (fun slot => String.eqb (status slot) "available") guestSlots))
    (List.length flexSlots)
    (List.length (List.filter (fun slot => String.eqb (status slot) "available") flexSlots)).


(** The clicks of a run are clicks on slots the map draws. *)
Fixpoint rendered_clicks (st : State) (events : list Event) : Prop :=
  match events with
  | [] => True
  | e :: rest =>
      match e with
      | SlotClick slot => slot ∈ slots st
      | _ => True
      end /\ rendered_clicks (step st e) rest
  end.



Lemma filter_length_le {A} (f : A -> bool) (l : list A) :
  (List.length (List.filter f l) <= List.length l)%nat.
Proof.
  induction l as [|x l IH]; cbn; [lia|]. destruct (f x); cbn; lia.
Qed.

Lemma filter_two_types_length (l : list Slot) :
  (List.length (List.filter (fun slot => String.eqb (slot_type slot) "guest") l) +
   List.length (List.filter (fun slot => String.eqb (slot_type slot) "flex") l)
   <= List.length l)%nat.
Proof.
  induction l as [|x l IH]; cbn [List.filter List.length]; [lia|].
  destruct (String.eqb_spec (slot_type x) "guest") as [Hg|];
    destruct (String.eqb_spec (slot_type x) "flex") as [Hf|];
    cbn [List.length]; try lia.
  rewrite Hg in Hf. discriminate Hf.
Qed.

(** X9: The cards are consistent: no more available slots than slots of a type,
    and guest and flex slots together no more than the slots drawn, so that
    the total of available slots never exceeds the total number of slots. *)
Theorem computeStats_bounds (slots : list Slot) :
  (availableGuest (computeStats slots) <= totalGuest (computeStats slots))%nat /\
  (availableFlex (computeStats slots) <= totalFlex (computeStats slots))%nat /\
  (totalGuest (computeStats slots) + totalFlex (computeStats slots)
   <= List.length slots)%nat /\
  (availableGuest (computeStats slots) + availableFlex (computeStats slots)
   <= List.length slots)%nat.
Proof.
  unfold computeStats. cbn [availableGuest totalGuest availableFlex totalFlex].
  pose proof (filter_two_types_length slots).
  pose proof (filter_length_le (fun slot => String.eqb (status slot) "available")
    (List.filter (fun slot => String.eqb (slot_type slot) "guest") slots)).
  pose proof (filter_length_le (fun slot => String.eqb (status slot) "available")
    (List.filter (fun slot => String.eqb (slot_type slot) "flex") slots)).
  lia.
Qed.












Lemma base_color_not_blue slot : base_color slot <> "fill-blue-500 stroke-blue-700".
Proof.
  unfold base_color, status_color.
  repeat match goal with
         | |- context [if ?c then _ else _] => destruct c
         end; discriminate.
Qed.

(** X11: A slot is drawn in the blue of a placed boat exactly when a boat is
    derived for it, and it then carries the boat's label; otherwise it keeps
    the colour of its type and status.  A permanent slot that the selected
    strategy uses is therefore blue, not red. *)
Theorem getSlotColor_blue_iff st slot :
  (getSlotColor st slot = "fill-blue-500 stroke-blue-700" <->
   is_Some (getBoatInfoForSlot st (id slot))) /\
  (getBoatInfoForSlot st (id slot) = None ->
   getSlotColor st slot = base_color slot /\
   slot_label st slot = pretty (id slot)).
Proof.
  pose proof (base_color_not_blue slot) as Hbase.
  unfold slot_label, getSlotColor, getBoatInfoForSlot.
  destruct (showOptimization st); cbn [negb].
  - destruct (truthy_name (selectedStrategy st)) as [n|].
    + destruct (strategyPlacements st !! n) as [placements|].
      * destruct (find_slot placements (id slot)) as [p|].
        -- split; [|done]. split; [by eexists|done].
        -- split; [|done]. split; [done|]. by intros [? ?].
      * split; [|done]. split; [done|]. by intros [? ?].
    + split; [|done]. split; [done|]. by intros [? ?].
  - split; [|done]. split; [done|]. by intros [? ?].
Qed.

Lemma with_status_id slot status : id (with_status slot status) = id slot.
Proof. reflexivity. Qed.

(** X12: Status changes compose as writes to one field: a later change of the
    same slot replaces the earlier one, and changes of different slots
    commute. *)
Theorem handleStatusChange_compose st i j s1 s2 :
  handleStatusChange (handleStatusChange st i s1) i s2 = handleStatusChange st i s2 /\
  (i <> j ->
   handleStatusChange (handleStatusChange st i s1) j s2 =
   handleStatusChange (handleStatusChange st j s2) i s1).
Proof.
  unfold handleStatusChange. cbn [slots selectedSlot hoveredSlot optimizationResult
    selectedStrategy showOptimization strategyPlacements].
  split.
  - f_equal.
    + rewrite <- list_fmap_compose. apply list_fmap_ext. intros k x _. cbn.
      destruct (Z.eqb_spec (id x) i) as [Hx|Hx].
      * by rewrite with_status_id, Hx, Z.eqb_refl.
      * by destruct (Z.eqb_spec (id x) i).
    + destruct (selectedSlot st) as [x|]; [|done].
      destruct (Z.eqb_spec (id x) i) as [Hx|Hx].
      * by rewrite with_status_id, Hx, Z.eqb_refl.
      * by destruct (Z.eqb_spec (id x) i).
  - intros Hij.
    assert (forall x : Slot,
              (if id (if id x =? i then with_status x s1 else x) =? j
               then with_status (if id x =? i then with_status x s1 else x) s2
               else if id x =? i then with_status x s1 else x) =
              (if id (if id x =? j then with_status x s2 else x) =? i
               then with_status (if id x =? j then with_status x s2 else x) s1
               else if id x =? j then with_status x s2 else x)) as Hswap.
    { intros x.
      destruct (Z.eqb_spec (id x) i) as [Hi|Hi];
        destruct (Z.eqb_spec (id x) j) as [Hj|Hj];
        rewrite ?with_status_id; try lia.
      - destruct (Z.eqb_spec (id x) i); [|lia].
        by destruct (Z.eqb_spec (id x) j); [lia|].
      - destruct (Z.eqb_spec (id x) j); [|lia].
        by destruct (Z.eqb_spec (id x) i); [lia|].
      - destruct (Z.eqb_spec (id x) j); [lia|].
        by destruct (Z.eqb_spec (id x) i); [lia|]. }
    f_equal.
    + rewrite <- !list_fmap_compose. apply list_fmap_ext. intros k x _.
      apply Hswap.
    + destruct (selectedSlot st) as [x|]; [|done].
      specialize (Hswap x).
      destruct (id x =? i) eqn:Hi; destruct (id x =? j) eqn:Hj;
        rewrite ?with_status_id, ?Hi, ?Hj in *; congruence.
Qed.

Lemma handleStatusChange_compose_witness :
  handleStatusChange (handleStatusChange sample_state 4 "reserved") 4 "occupied" =
    handleStatusChange sample_state 4 "occupied" /\
  handleStatusChange (handleStatusChange sample_state 4 "reserved") 9 "occupied" =
    handleStatusChange (handleStatusChange sample_state 9 "occupied") 4 "reserved".
Proof.
  destruct (handleStatusChange_compose sample_state 4 9 "reserved" "occupied")
    as [_ Hcomm].
  destruct (handleStatusChange_compose sample_state 4 4 "reserved" "occupied")
    as [Hlast _].
  split; [exact Hlast|apply Hcomm; discriminate].
Defined.

Lemma step_slots_selected st e s :
  match e with SlotClick slot => slot ∈ slots st | _ => True end ->
  (forall x, selectedSlot st = Some x -> x ∈ slots st) ->
  selectedSlot (step st e) = Some s -> s ∈ slots (step st e).
Proof.
  intros Hclick Hst.
  destruct e as [slot|i status| |slot| | |strategy| |saved|detail|detail strategy];
    cbn [step]; try (by apply Hst).
  - unfold handleSlotClick.
    destruct (String.eqb (slot_type slot) "permanent"); [by apply Hst|].
    cbn. by intros [= <-].
  - cbn [handleStatusChange selectedSlot slots].
    destruct (selectedSlot st) as [x|] eqn:Hx; [|done].
    specialize (Hst x eq_refl). intros Hs.
    apply list_elem_of_fmap. exists x. split; [|done].
    destruct (id x =? i); congruence.
  - done.
  - unfold loadOptimizationResult. destruct saved; by apply Hst.
  - unfold handleOptimizationComplete. destruct detail; by apply Hst.
  - unfold handleMapDataUpdate. destruct detail; by apply Hst.
Qed.

(** X13: The selected slot is always one of the slots currently drawn, with its
    current status: when every click is a click on a drawn slot, whatever the
    page goes through, the slot of the detail panel is a member of the slot
    list of the same state. *)
Theorem selected_slot_is_drawn fetched events s :
  rendered_clicks (initial fetched) events ->
  selectedSlot (run (initial fetched) events) = Some s ->
  s ∈ slots (run (initial fetched) events).
Proof.
  unfold run.
  assert (forall x, selectedSlot (initial fetched) = Some x ->
                    x ∈ slots (initial fetched)) as Hinit by done.
  revert Hinit. generalize (initial fetched). intros st Hst.
  revert st Hst s. induction events as [|e events IH]; intros st Hst s.
  - intros _. apply Hst.
  - cbn [rendered_clicks fold_left]. intros [He Hrest]. apply IH; [|done].
    intros x. by apply step_slots_selected.
Qed.

Lemma selected_slot_is_drawn_witness :
  with_status sample_slot "reserved" ∈
    slots (run (initial [sample_slot; sample_permanent])
             [SlotClick sample_slot; StatusChange 4 "reserved"]).
Proof.
  apply (selected_slot_is_drawn [sample_slot; sample_permanent]
           [SlotClick sample_slot; StatusChange 4 "reserved"]).
  - cbn. split; [left|done].
  - reflexivity.
Defined.

(** X14: Leaving the optimisation view and coming back forgets the tab the user
    had chosen: two toggles from the optimisation view end in that view with
    the auto-selected strategy (or none) selected; two toggles from the
    standard view end in it with no strategy selected.  Nothing else
    changes. *)
Theorem toggleOptimizationView_twice st :
  toggleOptimizationView (toggleOptimizationView st) =
  mkState (slots st) (selectedSlot st) (hoveredSlot st) (optimizationResult st)
    (if showOptimization st
     then name <$> (optimizationResult st ≫= auto_selected_best)
     else None)
    (showOptimization st) (strategyPlacements st).
Proof.
  unfold toggleOptimizationView.
  cbn [slots selectedSlot hoveredSlot optimizationResult selectedStrategy
       showOptimization strategyPlacements].
  destruct (showOptimization st); cbn [negb]; [|done].
  by destruct (optimizationResult st ≫= auto_selected_best).
Qed.

Lemma extract_placements_snoc results entry :
  extract_placements (results ++ [entry]) =
  <[entry.1 := entry.2]> (extract_placements results).
Proof. unfold extract_placements. by rewrite fold_left_app. Qed.

Lemma extract_placements_list_to_map results :
  extract_placements results = list_to_map (reverse results).
Proof.
  induction results as [|[n ps] results IH] using rev_ind; [done|].
  by rewrite extract_placements_snoc, reverse_snoc, list_to_map_cons, IH.
Qed.

(** X15: Looking a strategy up in the extracted placements gives back the list
    stored under its name in [strategy_results], names being distinct as
    the keys of an object are; a name that is not a key gives nothing. *)
Theorem extract_placements_lookup results n placements :
  NoDup results.*1 ->
  (extract_placements results !! n = Some placements <-> (n, placements) ∈ results) /\
  (extract_placements results !! n = None <-> n ∉ results.*1).
Proof.
  intros Hnd. rewrite extract_placements_list_to_map.
  assert (NoDup (reverse results).*1) as Hrev.
  { by rewrite fmap_reverse, reverse_Permutation. }
  split.
  - rewrite <- (elem_of_list_to_map _ _ _ Hrev). by rewrite elem_of_reverse.
  - rewrite <- not_elem_of_list_to_map, fmap_reverse.
    by rewrite elem_of_reverse.
Qed.

Lemma extract_placements_lookup_witness :
  (extract_placements [("first_fit", sample_placements); ("best_fit", [])]
     !! "first_fit" = Some sample_placements <->
   ("first_fit", sample_placements) ∈
     [("first_fit", sample_placements); ("best_fit", [])]) /\
  (extract_placements [("first_fit", sample_placements); ("best_fit", [])]
     !! "first_fit" = None <->
   "first_fit" ∉ [("first_fit", sample_placements); ("best_fit", [])].*1).
Proof.
  apply (extract_placements_lookup
           [("first_fit", sample_placements); ("best_fit", [])]
           "first_fit" sample_placements).
  apply NoDup_cons_2; [by intros ?%list_elem_of_singleton|apply NoDup_singleton].
Defined.

Lemma extract_placements_elem results n placements :
  NoDup results.*1 -> (n, placements) ∈ results ->
  extract_placements results !! n = Some placements.
Proof.
  intros Hnd Hin. rewrite extract_placements_list_to_map.
  apply elem_of_list_to_map.
  - by rewrite fmap_reverse, reverse_Permutation.
  - by apply elem_of_reverse.
Qed.

(** [raw] as listed under the strategy [n] in [strategy_results]. *)
Definition as_placement (n : string) (raw : RawPlacement) : Placement :=
  mkPlacement (raw_boat_id raw) (raw_slot_id raw) (raw_start_time raw)
    (raw_end_time raw) n.

Lemma find_slot_converted n raws slotId :
  find_slot (as_placement n <$> raws) slotId =
  as_placement n <$> (snd <$> list_find (fun raw => raw_slot_id raw = slotId) raws).
Proof.
  unfold find_slot. rewrite list_find_fmap.
  change ((fun p : Placement => slot_id p = slotId) ∘ as_placement n)
    with (fun raw => raw_slot_id raw = slotId).
  by destruct (list_find _ raws) as [[k raw]|].
Qed.

(** X16: From the response to the map: once the result of a run is loaded, the
    boat derived for a slot is the first placement to that slot in the list
    the server sent for the auto-selected strategy, tagged with that
    strategy's name; a slot the list does not mention has none. *)
Theorem loaded_result_shows_selected st d entries b raws slotId :
  strategies d = Some entries -> NoDup entries.*1 ->
  auto_selected_best (enhancedResult d) = Some b -> name b <> "" ->
  (name b, raws) ∈ entries ->
  getBoatInfoForSlot (loadOptimizationResult st (Some (enhancedResult d))) slotId =
    as_placement (name b) <$>
      (snd <$> list_find (fun raw => raw_slot_id raw = slotId) raws).
Proof.
  intros Hentries Hnd Hbest Hname Hin.
  unfold loadOptimizationResult. rewrite Hbest.
  unfold getBoatInfoForSlot.
  cbn [showOptimization selectedStrategy strategyPlacements negb truthy_name].
  unfold truthyS. destruct (String.eqb_spec (name b) "") as [|_]; [done|].
  cbn [negb].
  assert (strategy_results (enhancedResult d) = to_strategy_result <$> entries)
    as Hresults.
  { unfold enhancedResult. cbn [strategy_results]. by rewrite Hentries. }
  rewrite Hresults.
  rewrite (extract_placements_elem _ (name b) (as_placement (name b) <$> raws)).
  - apply find_slot_converted.
  - assert ((to_strategy_result <$> entries).*1 = entries.*1) as ->; [|done].
    rewrite <- list_fmap_compose. apply list_fmap_ext. by intros i [n raws0] _.
  - apply list_elem_of_fmap. by exists (name b, raws).
Qed.

Definition sample_raws : list RawPlacement :=
  [mkRaw 1 4 "2025-06-01" "2025-06-08"; mkRaw 2 7 "2025-06-03" "2025-06-05"].

Lemma loaded_result_shows_selected_witness :
  getBoatInfoForSlot
    (loadOptimizationResult sample_state (Some (enhancedResult sample_response))) 7 =
  as_placement "first_fit" <$>
    (snd <$> list_find (fun raw => raw_slot_id raw = 7) sample_raws).
Proof.
  apply (loaded_result_shows_selected sample_state sample_response
           [("first_fit", sample_raws);
            ("best_fit", [mkRaw 1 7 "2025-06-01" "2025-06-08";
                          mkRaw 2 4 "2025-06-03" "2025-06-05"])]
           (mkBest "first_fit" (mkEvaluation 2 2 1 (1#5) (19#25)))
           sample_raws 7).
  - reflexivity.
  - apply NoDup_cons_2; [by intros ?%list_elem_of_singleton|apply NoDup_singleton].
  - reflexivity.
  - discriminate.
  - left.
Defined.

(** X17: The two ways a result reaches the map, the completion event and the
    stored copy, lead to the same state whenever the result's selected
    strategy, if any, has a non-empty name. *)
Theorem completion_event_matches_load st r :
  (forall b, auto_selected_best r = Some b -> name b <> "") ->
  handleOptimizationComplete st (Some r) = loadOptimizationResult st (Some r).
Proof.
  intros Hname. unfold handleOptimizationComplete, loadOptimizationResult.
  destruct (auto_selected_best r) as [b|]; [|done].
  cbn [fmap option_fmap option_map truthy_name]. unfold truthyS.
  specialize (Hname b eq_refl).
  by destruct (String.eqb_spec (name b) "").
Qed.

Lemma completion_event_matches_load_witness :
  handleOptimizationComplete sample_state (Some (enhancedResult sample_response)) =
  loadOptimizationResult sample_state (Some (enhancedResult sample_response)).
Proof.
  apply (completion_event_matches_load sample_state (enhancedResult sample_response)).
  intros b [= <-]. discriminate.
Defined.

End Visualization.

(** ** The two strategy comparisons: result grid and map tabs *)

Module Comparison.

Import Selection Optimization.

Section Sort.

Context {A : Type}.
Variable compare : A -> A -> Z.

(** [Array.prototype.sort(compare)] is a stable sort; any stable sort gives
    the same array, here by insertion from the right: an element stays before
    the ones that followed it unless [compare] puts it after them. *)
Fixpoint insert (x : A) (l : list A) : list A :=
  match l with
  | [] => [x]
  | y :: rest => if compare x y >? 0 then y :: insert x rest else x :: l
  end.

Definition sort (l : list A) : list A := foldr insert [] l.

End Sort.

(** The comparator [([,a], [,b]) => b.boats_placed - a.boats_placed]. *)
Definition by_boats_placed (a b : string * Evaluation) : Z :=
  boats_placed b.2 - boats_placed a.2.

(** [Object.entries(optimizationResult.evaluations || {}).sort(...)]. *)
Definition sorted_entries (r : EnhancedResult) : Evaluations :=
  sort by_boats_placed (default [] (evaluations (response r))).

(** [strategyName === optimizationResult.auto_selected_best?.name]. *)
Definition is_auto_selected (r : EnhancedResult) (strategyName : string) : bool :=
  match auto_selected_best r with
  | Some best => String.eqb strategyName (name best)
  | None => false
  end.

(** A card of the result grid; [card_badge] is the box holding the text
    BÄST, drawn when [index === 0]. *)
Record Card : Type := mkCard {
  card_key : string;
  card_highlighted : bool;
  card_badge : bool;
  card_star : bool;
  card_evaluation : Evaluation
}.

Definition grid (r : EnhancedResult) : list Card :=
  imap (fun index entry =>
          mkCard entry.1 (is_auto_selected r entry.1) (bool_decide (index = 0%nat))
            (is_auto_selected r entry.1) entry.2)
       (sorted_entries r).

(** A button of the map's strategy tabs. *)
Record Tab : Type := mkTab {
  tab_key : string;
  tab_active : bool;
  tab_ring : bool;
  tab_star : bool;
  tab_boats_placed : Z;
  tab_total_boats : Z
}.

Definition tabs (r : EnhancedResult) (selectedStrategy : option string) : list Tab :=
  (fun entry =>
     mkTab entry.1 (bool_decide (selectedStrategy = Some entry.1))
       (is_auto_selected r entry.1) (is_auto_selected r entry.1)
       (boats_placed entry.2) (total_boats entry.2))
    <$> sorted_entries r.


(** *** The sort *)


Lemma insert_Permutation x (l : Evaluations) :
  insert by_boats_placed x l ≡ₚ x :: l.
Proof.
  induction l as [|z l IH]; cbn [insert]; [done|].
  destruct (by_boats_placed x z >? 0); [|done].
  rewrite IH. apply Permutation_swap.
Qed.

Lemma sort_Permutation (l : Evaluations) : sort by_boats_placed l ≡ₚ l.
Proof.
  induction l as [|x l IH]; cbn [sort foldr]; [done|].
  fold (sort by_boats_placed l). by rewrite insert_Permutation, IH.
Qed.



(** The sort keeps the first entry with the largest count in front. *)
Lemma insert_behind x y (l : Evaluations) :
  boats_placed x.2 < boats_placed y.2 ->
  insert by_boats_placed x (y :: l) = y :: insert by_boats_placed x l.
Proof.
  intros H. cbn [insert]. unfold by_boats_placed at 1.
  destruct (Z.gtb_spec (boats_placed y.2 - boats_placed x.2) 0); [done|lia].
Qed.

Lemma insert_in_front x (l : Evaluations) :
  (forall y, y ∈ l -> boats_placed y.2 <= boats_placed x.2) ->
  insert by_boats_placed x l = x :: l.
Proof.
  intros H. destruct l as [|y l]; [done|]. cbn [insert]. unfold by_boats_placed.
  specialize (H y ltac:(left)).
  destruct (Z.gtb_spec (boats_placed y.2 - boats_placed x.2) 0); [lia|done].
Qed.

Lemma sort_head_first_max (l1 l2 : Evaluations) x :
  (forall y, y ∈ l1 -> boats_placed y.2 < boats_placed x.2) ->
  (forall y, y ∈ l2 -> boats_placed y.2 <= boats_placed x.2) ->
  head (sort by_boats_placed (l1 ++ x :: l2)) = Some x.
Proof.
  intros H1 H2.
  assert (exists t, sort by_boats_placed (l1 ++ x :: l2) = x :: t) as [t ->]; [|done].
  induction l1 as [|y l1 IH]; cbn [app sort foldr].
  - fold (sort by_boats_placed l2). eexists. apply insert_in_front.
    intros y Hy. apply H2. by rewrite <- (sort_Permutation l2).
  - fold (sort by_boats_placed (l1 ++ x :: l2)).
    destruct IH as [t ->]. { intros z Hz. apply H1. by right. }
    eexists. apply insert_behind. apply H1. left.
Qed.

(** Whenever [findBestStrategy] selects a strategy, it is the first entry of
    the sorted order. *)
Lemma sorted_head_is_selected (d : ResponseData) b :
  auto_selected_best (enhancedResult d) = Some b ->
  head (sorted_entries (enhancedResult d)) = Some (name b, evaluation b).
Proof.
  unfold sorted_entries. cbn. intros Hb.
  destruct (findBestStrategy_Some _ _ Hb) as (l1 & l2 & -> & _ & H1 & H2).
  by apply sort_head_first_max.
Qed.








(** The badge does not wait for a selection: with no boat placed anywhere the
    first card carries it although no strategy is selected. *)
Example badge_without_selection :
  let r := enhancedResult (mkData (Some ev_none_placed) None None) in
  auto_selected_best r = None /\
  (card_key <$> grid r, card_badge <$> grid r) =
    (["first_fit"; "best_fit"], [true; false]).
Proof. split; reflexivity. Qed.

(** *** Further properties of the comparisons *)

Lemma insert_filter_count k x (l : Evaluations) :
  filter (fun e => boats_placed e.2 = k) (insert by_boats_placed x l) =
  filter (fun e => boats_placed e.2 = k) (x :: l).
Proof.
  induction l as [|y l IH]; cbn [insert]; [done|].
  unfold by_boats_placed at 1.
  destruct (Z.gtb_spec (boats_placed y.2 - boats_placed x.2) 0) as [Hgt|]; [|done].
  rewrite filter_cons, IH, !filter_cons.
  destruct (decide (boats_placed y.2 = k)), (decide (boats_placed x.2 = k));
    try done; lia.
Qed.

(** X18: Strategies that tie on [boats_placed] are rendered, in the grid and in
    the tabs, in the order in which the evaluations enumerate them: for every
    count, the entries with that count appear in the rendered order exactly
    as they do in the evaluations. *)
Theorem sorted_entries_stable (r : EnhancedResult) (k : Z) :
  filter (fun e => boats_placed e.2 = k) (sorted_entries r) =
  filter (fun e => boats_placed e.2 = k) (default [] (evaluations (response r))).
Proof.
  unfold sorted_entries. generalize (default [] (evaluations (response r))).
  intros l. induction l as [|x l IH]; [done|].
  cbn [sort foldr]. fold (sort by_boats_placed l).
  by rewrite insert_filter_count, !filter_cons, IH.
Qed.

(** X19: Whenever the run selected a strategy, that strategy is the first card of
    the grid, the one with the BÄST badge, and the first tab of the map, with
    the star of the selected strategy on both. *)
Theorem selected_strategy_is_first (d : ResponseData) (selected : option string) b :
  auto_selected_best (enhancedResult d) = Some b ->
  exists c t,
    head (grid (enhancedResult d)) = Some c /\
    card_key c = name b /\ card_evaluation c = evaluation b /\
    card_badge c = true /\ card_star c = true /\ card_highlighted c = true /\
    head (tabs (enhancedResult d) selected) = Some t /\
    tab_key t = name b /\ tab_boats_placed t = boats_placed (evaluation b) /\
    tab_star t = true /\ tab_ring t = true.
Proof.
  intros Hb. pose proof (sorted_head_is_selected d b Hb) as Hhead.
  unfold grid, tabs.
  destruct (sorted_entries (enhancedResult d)) as [|[n e] rest]; [done|].
  cbn in Hhead. injection Hhead as -> ->.
  assert (is_auto_selected (enhancedResult d) (name b) = true) as Hsel.
  { unfold is_auto_selected. rewrite Hb. apply String.eqb_refl. }
  eexists _, _. cbn. rewrite Hsel. by repeat split.
Qed.

Lemma selected_strategy_is_first_witness :
  exists c t,
    head (grid (enhancedResult sample_response)) = Some c /\
    card_key c = "first_fit" /\
    card_evaluation c = mkEvaluation 2 2 1 (1#5) (19#25) /\
    card_badge c = true /\ card_star c = true /\ card_highlighted c = true /\
    head (tabs (enhancedResult sample_response) (Some "best_fit")) = Some t /\
    tab_key t = "first_fit" /\ tab_boats_placed t = 2 /\
    tab_star t = true /\ tab_ring t = true.
Proof.
  apply (selected_strategy_is_first sample_response (Some "best_fit")
           (mkBest "first_fit" (mkEvaluation 2 2 1 (1#5) (19#25)))).
  reflexivity.
Defined.

End Comparison.

(** ** BoatList page: filtering and pagination *)

Module BoatList.

Record BoatRow : Type := mkBoat {
  id : Z;
  name : string;
  owner : string;
  length : Q;
  width : Q;
  type : string;
  registration : string;
  slot : string;
  status : string;
  arrivalDate : string;
  departureDate : string;
  paidUntil : string;
  contactPhone : string;
  contactEmail : string;
  notes : string
}.

(** The literal [boatsData]. *)
Definition boatsData : list BoatRow :=
  [mkBoat 1 "Matilde" "Robert Green" 8.5 3.2 "Motorbåt" "SE-ABX-123" "A12"
     "active" "2025-04-15" "2025-09-30" "2025-09-30" "070-123 45 67"
     "maria.j@example.com" "Behöver el-anslutning";
   mkBoat 2 "Vindseglare" "Anders Bergström" 12.2 4.1 "Segelbåt" "SE-CDY-456"
     "B08" "active" "2025-05-01" "2025-10-15" "2025-10-15" "070-234 56 78"
     "anders.b@example.com" "Lång mast";
   mkBoat 3 "Delfinen" "Sophia Andersson" 9.8 3.5 "Motorbåt" "SE-EFG-789" "C04"
     "active" "2025-05-10" "2025-08-25" "2025-08-25" "070-345 67 89"
     "sophia.a@example.com" "";
   mkBoat 4 "Vågsurfaren" "Erik Lindgren" 7.2 2.8 "Motorbåt" "SE-HIJ-012" "A15"
     "inactive" "2025-04-10" "2025-05-10" "2025-05-10" "070-456 78 90"
     "erik.l@example.com" "Utcheckad";
   mkBoat 5 "Havsbris" "Lisa Nordström" 11.5 3.9 "Segelbåt" "SE-KLM-345" "B12"
     "maintenance" "2025-03-20" "2025-10-01" "2025-10-01" "070-567 89 01"
     "lisa.n@example.com" "Under reparation till 2025-05-25";
   mkBoat 6 "Skärgårdsvind" "Karl Svensson" 14.2 4.5 "Segelbåt" "SE-NOP-678"
     "D02" "active" "2025-05-15" "2025-09-15" "2025-09-15" "070-678 90 12"
     "karl.s@example.com" "Behöver extra förtöjning vid storm";
   mkBoat 7 "Solstråle" "Emma Karlsson" 6.8 2.5 "Motorbåt" "SE-QRS-901" "A08"
     "pending" "2025-05-25" "2025-08-15" "" "070-789 01 23"
     "emma.k@example.com" "Väntar på betalning"]%Q.

(** React state of the page. *)
Record State : Type := mkState {
  searchTerm : string;
  selectedStatus : string;
  currentPage : Z;
  expandedBoat : option Z
}.

Definition initial : State := mkState "" "all" 1 None.

(** [Array.prototype.slice(start, end)]: a negative index counts from the
    end, and both indices are clamped to the array. *)
Definition clamp_index (len i : Z) : Z :=
  if i <? 0 then Z.max (len + i) 0 else Z.min i len.

Definition slice {A} (l : list A) (start stop : Z) : list A :=
  let len := Z.of_nat (List.length l) in
  take (Z.to_nat (clamp_index len stop - clamp_index len start))
       (drop (Z.to_nat (clamp_index len start)) l).

Definition boatsPerPage : Z := 5.

Section Page.

(** [String.prototype.toLowerCase], whose case mapping is left open. *)
Variable toLowerCase : string -> string.

Definition filteredBoats (st : State) : list BoatRow :=
  List.filter
    (fun boat =>
       let matchesSearch :=
         SlotList.includes (toLowerCase (name boat)) (toLowerCase (searchTerm st)) ||
         SlotList.includes (toLowerCase (owner boat)) (toLowerCase (searchTerm st)) ||
         SlotList.includes (toLowerCase (slot boat)) (toLowerCase (searchTerm st)) in
       let matchesStatus :=
         String.eqb (selectedStatus st) "all" ||
         String.eqb (status boat) (selectedStatus st) in
       matchesSearch && matchesStatus)
    boatsData.

(** [Math.ceil(filteredBoats.length / boatsPerPage)]. *)
Definition totalPages (st : State) : Z :=
  (Z.of_nat (List.length (filteredBoats st)) + boatsPerPage - 1) / boatsPerPage.

Definition indexOfLastBoat (st : State) : Z := currentPage st * boatsPerPage.
Definition indexOfFirstBoat (st : State) : Z := indexOfLastBoat st - boatsPerPage.

Definition currentBoats (st : State) : list BoatRow :=
  slice (filteredBoats st) (indexOfFirstBoat st) (indexOfLastBoat st).

(** The pagination bar is drawn. *)
Definition pager_shown (st : State) : bool := totalPages st >? 1.

(** The two numbers of the line "Visar ... till ... av ... båtar". *)
Definition shown_from (st : State) : Z := indexOfFirstBoat st + 1.
Definition shown_to (st : State) : Z :=
  if indexOfLastBoat st >? Z.of_nat (List.length (filteredBoats st))
  then Z.of_nat (List.length (filteredBoats st))
  else indexOfLastBoat st.

Definition paginate (st : State) (pageNumber : Z) : State :=
  mkState (searchTerm st) (selectedStatus st) pageNumber (expandedBoat st).

Definition toggleExpandBoat (st : State) (i : Z) : State :=
  mkState (searchTerm st) (selectedStatus st) (currentPage st)
    (if bool_decide (expandedBoat st = Some i) then None else Some i).

(** What the user can do on the page; [GoTo i] is the button of index [i]
    in the pagination bar. *)
Inductive Event : Type :=
| SetSearchTerm (term : string)
| SetSelectedStatus (status : string)
| Previous
| Next
| GoTo (i : nat)
| ToggleExpand (i : Z).

Definition step (st : State) (e : Event) : State :=
  match e with
  | SetSearchTerm term =>
      mkState term (selectedStatus st) (currentPage st) (expandedBoat st)
  | SetSelectedStatus status =>
      mkState (searchTerm st) status (currentPage st) (expandedBoat st)
  | Previous =>
      paginate st (if currentPage st >? 1 then currentPage st - 1 else 1)
  | Next =>
      paginate st (if currentPage st <? totalPages st
                   then currentPage st + 1 else totalPages st)
  | GoTo i => paginate st (Z.of_nat i + 1)
  | ToggleExpand i => toggleExpandBoat st i
  end.

(** The pagination buttons exist: the bar is drawn and, for a numbered
    button, its index is below the number of pages. *)
Definition pager_event (st : State) (e : Event) : Prop :=
  match e with
  | Previous | Next => pager_shown st = true
  | GoTo i => pager_shown st = true /\ Z.of_nat i < totalPages st
  | _ => False
  end.

(** *** Pages of the table *)

Lemma totalPages_bounds st :
  let len := Z.of_nat (List.length (filteredBoats st)) in
  len <= 5 * totalPages st /\ 5 * totalPages st < len + 5.
Proof.
  unfold totalPages, boatsPerPage. cbv zeta.
  generalize (Z.of_nat (List.length (filteredBoats st))). intros len.
  pose proof (Z.div_mod (len + 5 - 1) 5 ltac:(lia)).
  pose proof (Z.mod_pos_bound (len + 5 - 1) 5 ltac:(lia)). lia.
Qed.

Lemma currentBoats_chunk st k :
  currentPage st = Z.of_nat k + 1 ->
  currentBoats st = take 5 (drop (5 * k) (filteredBoats st)).
Proof.
  intros Hk. unfold currentBoats, indexOfFirstBoat, indexOfLastBoat, boatsPerPage, slice.
  rewrite Hk. generalize (filteredBoats st). intros l.
  unfold clamp_index.
  destruct (Z.ltb_spec ((Z.of_nat k + 1) * 5 - 5) 0); [lia|].
  destruct (Z.ltb_spec ((Z.of_nat k + 1) * 5) 0); [lia|].
  destruct (decide (5 * k <= List.length l)%nat) as [Hle|Hgt].
  - replace (Z.to_nat (Z.min ((Z.of_nat k + 1) * 5 - 5) (Z.of_nat (List.length l))))
      with (5 * k)%nat by lia.
    destruct (decide (5 * k + 5 <= List.length l)%nat).
    + f_equal. lia.
    + rewrite !take_ge; [done| |]; rewrite length_drop; lia.
  - rewrite (drop_ge l (5 * k)) by lia. rewrite take_nil.
    rewrite drop_ge by lia. by rewrite take_nil.
Qed.

Lemma concat_chunks {A} (l : list A) (n : nat) :
  concat ((fun k => take 5 (drop (5 * k) l)) <$> seq 0 n) = take (5 * n) l.
Proof.
  induction n as [|n IH]; [done|].
  rewrite seq_S, fmap_app, concat_app, IH. cbn [fmap list_fmap concat].
  rewrite app_nil_r, take_take_drop. f_equal. lia.
Qed.

(** X20: The pages split the filtered boats: going through the pages 1 to
    [totalPages] and putting the boats shown on each one after the other
    gives the filtered list, every boat once and in order. *)
Theorem pages_partition st :
  concat ((fun k => currentBoats (paginate st (Z.of_nat k + 1)))
            <$> seq 0 (Z.to_nat (totalPages st))) =
  filteredBoats st.
Proof.
  erewrite list_fmap_ext.
  - rewrite concat_chunks. apply take_ge.
    pose proof (totalPages_bounds st) as [H _]. lia.
  - intros i k _. by rewrite (currentBoats_chunk (paginate st (Z.of_nat k + 1)) k).
Qed.

(** X21: On a page within range the table shows between one and five boats, five
    on every page but the last, and as many as the line "Visar ... till ...
    av ..." announces. *)
Theorem page_size st :
  1 <= currentPage st <= totalPages st ->
  (1 <= List.length (currentBoats st) <= 5)%nat /\
  (currentPage st < totalPages st -> List.length (currentBoats st) = 5%nat) /\
  Z.of_nat (List.length (currentBoats st)) = shown_to st - shown_from st + 1 /\
  shown_to st <= Z.of_nat (List.length (filteredBoats st)).
Proof.
  intros [Hlo Hhi].
  pose proof (totalPages_bounds st) as [Hb1 Hb2]. cbv zeta in Hb1, Hb2.
  rewrite (currentBoats_chunk st (Z.to_nat (currentPage st - 1))) by lia.
  unfold shown_to, shown_from, indexOfFirstBoat, indexOfLastBoat, boatsPerPage.
  rewrite length_take, length_drop.
  destruct (Z.gtb_spec (currentPage st * 5) (Z.of_nat (List.length (filteredBoats st))));
    repeat split; lia.
Qed.

Lemma currentBoats_beyond st :
  1 <= currentPage st -> totalPages st < currentPage st -> currentBoats st = [].
Proof.
  intros Hlo Hhi. pose proof (totalPages_bounds st) as [Hb _]. cbv zeta in Hb.
  rewrite (currentBoats_chunk st (Z.to_nat (currentPage st - 1))) by lia.
  rewrite drop_ge by lia. apply take_nil.
Qed.

(** X22: The buttons of the pagination bar keep the page within range, and do not
    touch the filters or the number of pages. *)
Theorem pager_keeps_range st e :
  pager_event st e ->
  1 <= currentPage st <= totalPages st ->
  1 <= currentPage (step st e) <= totalPages (step st e) /\
  totalPages (step st e) = totalPages st /\
  filteredBoats (step st e) = filteredBoats st.
Proof.
  intros He [Hlo Hhi].
  assert (forall p, totalPages (paginate st p) = totalPages st) as Htotal by done.
  destruct e as [term|status| | |i|i]; cbn [pager_event] in He; try done;
    cbn [step]; rewrite Htotal; (split; [|done]); cbn [paginate currentPage].
  - destruct (Z.gtb_spec (currentPage st) 1); lia.
  - destruct (Z.ltb_spec (currentPage st) (totalPages st)); lia.
  - lia.
Qed.

(** X23: Changing the search term or the status filter keeps the page number.
    When fewer pages remain than that number, the table shows no boat even
    though boats match the filter. *)
Theorem filter_change_keeps_page st e :
  match e with SetSearchTerm _ | SetSelectedStatus _ => True | _ => False end ->
  1 <= currentPage st ->
  currentPage (step st e) = currentPage st /\
  (totalPages (step st e) < currentPage st -> currentBoats (step st e) = []).
Proof.
  intros He Hlo.
  destruct e as [term|status| | |i|i]; try done; cbn [step].
  - split; [done|]. intros Hhi. by apply currentBoats_beyond.
  - split; [done|]. intros Hhi. by apply currentBoats_beyond.
Qed.

End Page.

Lemma page_size_witness :
  (1 <= List.length (currentBoats (fun s => s) (paginate initial 2)) <= 5)%nat /\
  (currentPage (paginate initial 2) < totalPages (fun s => s) (paginate initial 2) ->
   List.length (currentBoats (fun s => s) (paginate initial 2)) = 5%nat) /\
  Z.of_nat (List.length (currentBoats (fun s => s) (paginate initial 2))) =
    shown_to (fun s => s) (paginate initial 2) - shown_from (paginate initial 2) + 1 /\
  shown_to (fun s => s) (paginate initial 2) <=
    Z.of_nat (List.length (filteredBoats (fun s => s) (paginate initial 2))).
Proof.
  apply (page_size (fun s => s) (paginate initial 2)).
  split; [by intros ?|by intros ?].
Defined.

Lemma pager_keeps_range_witness :
  1 <= currentPage (step (fun s => s) initial Next)
    <= totalPages (fun s => s) (step (fun s => s) initial Next) /\
  totalPages (fun s => s) (step (fun s => s) initial Next) =
    totalPages (fun s => s) initial /\
  filteredBoats (fun s => s) (step (fun s => s) initial Next) =
    filteredBoats (fun s => s) initial.
Proof.
  apply (pager_keeps_range (fun s => s) initial Next).
  - reflexivity.
  - split; [by intros ?|by intros ?].
Defined.

(** On the second page, selecting the status with a single boat. *)
Lemma filter_change_keeps_page_witness :
  currentPage (step (fun s => s) (paginate initial 2) (SetSelectedStatus "maintenance")) = 2 /\
  currentBoats (fun s => s)
    (step (fun s => s) (paginate initial 2) (SetSelectedStatus "maintenance")) = [] /\
  List.length (filteredBoats (fun s => s)
    (step (fun s => s) (paginate initial 2) (SetSelectedStatus "maintenance"))) = 1%nat /\
  pager_shown (fun s => s)
    (step (fun s => s) (paginate initial 2) (SetSelectedStatus "maintenance")) = false.
Proof.
  destruct (filter_change_keeps_page (fun s => s) (paginate initial 2)
              (SetSelectedStatus "maintenance") I ltac:(by intros ?))
    as [Hpage Hempty].
  split; [exact Hpage|]. split; [apply Hempty; reflexivity|].
  split; reflexivity.
Defined.

End BoatList.

(** ** App and Layout: navigation between the pages *)

Module App.

(** The page components [renderPage] can return. *)
Inductive PageComponent : Type :=
| DashboardPage
| BoatListPage
| SlotListPage
| OptimizationPage
| VisualizationPage.

(** [renderPage] of [App], as a function of [currentPage]. *)
Definition renderPage (currentPage : string) : PageComponent :=
  if String.eqb currentPage "dashboard" then DashboardPage
  else if String.eqb currentPage "boats" then BoatListPage
  else if String.eqb currentPage "slots" then SlotListPage
  else if String.eqb currentPage "optimize" then OptimizationPage
  else if String.eqb currentPage "visualization" then VisualizationPage
  else DashboardPage.

Record NavItem : Type := mkNav { path : string; label : string }.

(** [navItems] of [Layout] (icons left out). *)
Definition navItems : list NavItem :=
  [mkNav "dashboard" "Dashboard";
   mkNav "boats" "Båtar";
   mkNav "slots" "Platser";
   mkNav "optimize" "Optimering";
   mkNav "visualization" "Visualisering"].

Definition isActive (currentPage path : string) : string :=
  if String.eqb currentPage path then "bg-sky-700 text-white"
  else "text-sky-100 hover:bg-sky-800 hover:text-white".

Definition getPageTitle (currentPage : string) : string :=
  if String.eqb currentPage "dashboard" then "Dashboard"
  else if String.eqb currentPage "boats" then "Båthantering"
  else if String.eqb currentPage "slots" then "Platshantering"
  else if String.eqb currentPage "optimize" then "Optimeringsverktyg"
  else if String.eqb currentPage "visualization" then "Hamnvisualisering"
  else "Fiskebäckskil Hamn".

(** [currentPage] of [App] and [sidebarOpen] of [Layout]. *)
Record State : Type := mkState { currentPage : string; sidebarOpen : bool }.

Definition initial : State := mkState "dashboard" false.

Definition handleNavClick (st : State) (path : string) : State :=
  mkState path false.

(** The clicks [Layout] reacts to: a navigation button, the menu button, and
    the backdrop or the close button of the sidebar. *)
Inductive Event : Type :=
| NavClick (item : NavItem)
| OpenSidebar
| CloseSidebar.

Definition step (st : State) (e : Event) : State :=
  match e with
  | NavClick item => handleNavClick st (path item)
  | OpenSidebar => mkState (currentPage st) true
  | CloseSidebar => mkState (currentPage st) false
  end.

Definition run (events : list Event) : State := fold_left step events initial.

(** Every navigation click is a click on one of the buttons drawn. *)
Definition drawn (e : Event) : Prop :=
  match e with
  | NavClick item => item ∈ navItems
  | _ => True
  end.

(** The navigation buttons highlighted for a page. *)
Definition highlighted (currentPage : string) : list NavItem :=
  List.filter
    (fun item => String.eqb (isActive currentPage (path item)) "bg-sky-700 text-white")
    navItems.

Lemma run_page_drawn events :
  Forall drawn events -> currentPage (run events) ∈ path <$> navItems.
Proof.
  unfold run.
  assert (currentPage initial ∈ path <$> navItems) as Hinit by left.
  revert Hinit. generalize initial. intros st Hst HF. revert st Hst.
  induction HF as [|e events He HF IH]; intros st Hst; [done|].
  cbn [fold_left]. apply IH.
  destruct e as [item| |]; cbn [step handleNavClick currentPage]; try done.
  by apply list_elem_of_fmap_2.
Qed.

(** X24: Whatever the user clicks, the page shown is one of the five of the
    navigation: exactly one navigation button is highlighted, it is the
    button of the page shown, the title is that page's title and not the
    fallback, and the dashboard is only rendered for its own path. *)
Theorem navigation_consistent events :
  Forall drawn events ->
  exists item,
    item ∈ navItems /\ path item = currentPage (run events) /\
    highlighted (currentPage (run events)) = [item] /\
    getPageTitle (currentPage (run events)) <> "Fiskebäckskil Hamn" /\
    (renderPage (currentPage (run events)) = DashboardPage ->
     currentPage (run events) = "dashboard").
Proof.
  intros HF. pose proof (run_page_drawn events HF) as Hpage.
  apply list_elem_of_fmap in Hpage as (item & Hpath & Hitem).
  exists item. rewrite Hpath. split; [done|]. split; [done|].
  unfold navItems in Hitem.
  repeat (apply elem_of_cons in Hitem as [->|Hitem];
          [repeat split; try reflexivity; try discriminate|]).
  by apply elem_of_nil in Hitem.
Qed.

Lemma navigation_consistent_witness :
  exists item,
    item ∈ navItems /\
    path item = currentPage (run [OpenSidebar; NavClick (mkNav "optimize" "Optimering")]) /\
    highlighted (currentPage (run [OpenSidebar; NavClick (mkNav "optimize" "Optimering")])) =
      [item] /\
    getPageTitle (currentPage (run [OpenSidebar; NavClick (mkNav "optimize" "Optimering")])) <>
      "Fiskebäckskil Hamn" /\
    (renderPage (currentPage (run [OpenSidebar; NavClick (mkNav "optimize" "Optimering")])) =
       DashboardPage ->
     currentPage (run [OpenSidebar; NavClick (mkNav "optimize" "Optimering")]) = "dashboard").
Proof.
  apply (navigation_consistent [OpenSidebar; NavClick (mkNav "optimize" "Optimering")]).
  repeat constructor.
Defined.

End App.
